(** * Cloudchamber [create]: the SSH-key selection of a new deployment

    A shallow embedding of [packages/wrangler/src/cloudchamber/create.ts].
    The asynchronous functions of the source become programs of a small
    free monad over the calls they await; a run against a deterministic
    collaborator yields the calls made, in order, and the outcome. *)

From Stdlib Require Import List String Bool Arith Lia Floats.PrimFloat.
Import ListNotations.
Local Open Scope string_scope.
Local Open Scope list_scope.

(** ** JavaScript values that cross the prompt boundary *)

(** Modelled from the spec: the type [Arg] of
    [@cloudflare/cli/interactive], which [create.ts] only imports.  The
    prompts of the spec return a boolean choice, a chosen value or the
    chosen values; [undefined] and the numbers are the other values a
    prompt works on, the ones the callbacks of the source turn down.  A
    JavaScript number is a binary64 float. *)
Inductive Arg : Type :=
| AStr (s : string)
| ABool (b : bool)
| AArr (l : list string)
| AUndefined
| ANum (n : float).

(** [if (v)]: the falsy ones are [""], [false], [undefined], [0], [-0]
    and [NaN]; an array is truthy even when it is empty. *)
Definition truthy (v : Arg) : bool :=
  match v with
  | AStr s => negb (String.eqb s "")
  | ABool b => b
  | AArr _ => true
  | AUndefined => false
  | ANum n => negb (PrimFloat.eqb n 0 || negb (PrimFloat.eqb n n))
  end.

(** [v === s] for a string literal [s]. *)
Definition strictEqStr (v : Arg) (s : string) : bool :=
  match v with
  | AStr t => String.eqb t s
  | _ => false
  end.

(** [Array.isArray(v)] *)
Definition isArray (v : Arg) : bool :=
  match v with
  | AArr _ => true
  | _ => false
  end.

(** ** Data of [./client] and of the command line *)

(** Modelled from the spec: the SSH key record, an opaque string as
    identifier and a human-readable name.  [SSHPublicKeyID] and
    [SSHPublicKeyItem] are declared in [./client]; the source reads the
    fields [id] and [name]. *)
Definition SSHPublicKeyID : Type := string.

Record SSHPublicKeyItem : Type := {
  id : SSHPublicKeyID;
  name : string
}.

(** The parsed flags of [createCommandOptionalYargs]: every option has
    [demandOption: false], so every field may be [undefined]. *)
Record Args : Type := {
  image : option string;
  location : option string;
  var : option (list string);
  label : option (list string);
  allSshKeys : option bool;
  sshKeyId : option (list string);
  vcpu : option float;
  memory : option string;
  ipv4 : option bool;
  env : option string
}.

(** ** Prompts *)

Inductive PromptType : Type := confirm | select | multiselect | text.

Record PromptOption : Type := {
  optionLabel : string;
  value : string
}.

(** The object literal passed to [inputPrompt]; a property that a
    literal leaves out is [None] ([AUndefined] for [defaultValue]). *)
Record PromptConfig : Type := {
  question : string;
  type : PromptType;
  promptLabel : string;
  helpText : option string;
  defaultValue : Arg;
  options : option (list PromptOption);
  validate : option (Arg -> option string)
}.

(** ** Programs that call their collaborators *)

(** The message of a thrown [Error], or of a rejected promise. *)
Definition Error : Type := string.

(** A program either returns, throws, or makes a call [e] of the event
    family [E] and goes on with its outcome: a rejection or a value. *)
Inductive Prog (E : Type -> Type) (A : Type) : Type :=
| Ret (a : A)
| Throw (err : Error)
| Do {X : Type} (e : E X) (k : Error + X -> Prog E A).

Arguments Ret {E A} a.
Arguments Throw {E A} err.
Arguments Do {E A X} e k.

Fixpoint bind {E : Type -> Type} {A B : Type}
  (p : Prog E A) (f : A -> Prog E B) : Prog E B :=
  match p with
  | Ret a => f a
  | Throw err => Throw err
  | Do e k => Do e (fun o => bind (k o) f)
  end.

(** [await e], outside any [try]: a rejection is thrown on. *)
Definition await {E : Type -> Type} {X : Type} (e : E X) : Prog E X :=
  Do e (fun o => match o with inl err => Throw err | inr x => Ret x end).

(** A synchronous call of a collaborator, sequenced like an awaited
    one: what it throws is thrown on. *)
Definition perform {E : Type -> Type} {X : Type} (e : E X) : Prog E X :=
  await e.

(** [wrap] of [./helpers/wrap]: settle a promise into its value or its
    rejection, without throwing. *)
Fixpoint wrap {E : Type -> Type} {A : Type} (p : Prog E A)
  : Prog E (Error + A) :=
  match p with
  | Ret a => Ret (inr a)
  | Throw err => Ret (inl err)
  | Do e k => Do e (fun o => wrap (k o))
  end.

Declare Scope prog_scope.
Delimit Scope prog_scope with prog.
Notation "x <- p ;; q" := (bind p (fun x => q))
  (at level 61, p at next level, right associativity) : prog_scope.
Notation "p ;; q" := (bind p (fun _ => q))
  (at level 61, right associativity) : prog_scope.
Local Open Scope prog_scope.

(** One finished call: the event and what the collaborator made of it. *)
Inductive Call (E : Type -> Type) : Type :=
| call {X : Type} (e : E X) (outcome : Error + X).

Arguments call {E X} e outcome.

Definition Trace (E : Type -> Type) : Type := list (Call E).

(** A deterministic collaborator: the outcome of a call, given the
    calls that came before it. *)
Definition Collaborator (E : Type -> Type) : Type :=
  Trace E -> forall X : Type, E X -> Error + X.

(** [run w p done] runs [p] against [w] after the calls [done], and
    gives the calls made, oldest first, with what [p] returned or threw. *)
Fixpoint run {E : Type -> Type} {A : Type}
  (w : Collaborator E) (p : Prog E A) (done : Trace E)
  : Trace E * (Error + A) :=
  match p with
  | Ret a => (done, inr a)
  | Throw err => (done, inl err)
  | Do e k =>
      let o := w done _ e in
      run w (k o) (done ++ [call e o])
  end.

(** ** The calls of the key selection *)

Inductive CliEvent : Type -> Type :=
| pollSSHKeysUntilCondition (onSSHKeys : list SSHPublicKeyItem -> bool)
    : CliEvent (list SSHPublicKeyItem)
| inputPrompt (promptConfig : PromptConfig) : CliEvent Arg.

(** [() => true], the condition every poll of the source passes: the
    first list of keys fetched is the one returned. *)
Definition always (sshKeys : list SSHPublicKeyItem) : bool := true.

(** The [validate] callback of the multi-select prompt. *)
Definition validateSelectedKeys (values : Arg) : option string :=
  if negb (isArray values) then Some "unknown error"
  else
    match values with
    | AArr [] => Some "Select atleast one ssh key!"
    | _ => None
    end.

Definition confirmSingleKeyPrompt (keyName : string) : PromptConfig := {|
  question := ("Do you want to add the SSH key " ++ keyName ++ "?")%string;
  type := confirm;
  helpText := Some "You need this to SSH into the VM";
  defaultValue := ABool false;
  promptLabel := "";
  options := None;
  validate := None
|}.

Definition multipleKeysPrompt : PromptConfig := {|
  question :=
    "You have multiple SSH keys in your account, what do you want to do for this new deployment?";
  promptLabel := "ssh";
  defaultValue := ABool false;
  helpText := Some "";
  type := select;
  options := Some [
    {| optionLabel := "Add all of them"; value := "all" |};
    {| optionLabel := "Select the keys"; value := "select" |};
    {| optionLabel := "Don't add any SSH keys"; value := "none" |}
  ];
  validate := None
|}.

Definition selectKeysPrompt (keyItems : list SSHPublicKeyItem) : PromptConfig := {|
  question := "Select the keys you want to add";
  promptLabel := "";
  defaultValue := AArr [];
  helpText := Some "Select one key with the 'space' key. Submit with 'enter'";
  type := multiselect;
  options := Some (map (fun keyOpt =>
    {| optionLabel := name keyOpt; value := id keyOpt |}) keyItems);
  validate := Some validateSelectedKeys
|}.

(** [key ? [...sshKeyId, key] : sshKeyId]: the test is the truthiness of
    [key], and the empty string is falsy. *)
Definition withChosenKey (sshKeyId : list string) (key : option SSHPublicKeyID)
  : list string :=
  match key with
  | Some k => if String.eqb k "" then sshKeyId else sshKeyId ++ [k]
  | None => sshKeyId
  end.

(** The value returned is an [Arg]: the source hands back the answer of
    the multi-select prompt as it came. *)
Definition askWhichSSHKeysDoTheyWantToAdd
  (args : Args) (key : option SSHPublicKeyID) : Prog CliEvent Arg :=
  keyItems <- await (pollSSHKeysUntilCondition always) ;;
  let keys := map id keyItems in
  match allSshKeys args with
  | Some true => Ret (AArr keys)
  | _ =>
  match sshKeyId args with
  | Some ((_ :: _) as ids) => Ret (AArr (withChosenKey ids key))
  | _ =>
  if (List.length keys =? 1)%nat then
    match keyItems with
    | [] => Throw "TypeError: Cannot read properties of undefined (reading 'name')"
    | keyItem0 :: _ =>
        yes <- await (inputPrompt (confirmSingleKeyPrompt (name keyItem0))) ;;
        if truthy yes then Ret (AArr keys) else Ret (AArr [])
    end
  else if (List.length keys <=? 1)%nat then
    Ret (AArr [])
  else
    res <- await (inputPrompt multipleKeysPrompt) ;;
    if strictEqStr res "all" then Ret (AArr keys)
    else if strictEqStr res "select" then
      resKeys <- await (inputPrompt (selectKeysPrompt keyItems)) ;;
      Ret resKeys
    else Ret (AArr [])
  end
  end.

(** ** The command around the selection *)

Definition defaultContainerImage : string := "docker.io/cloudflare/hello-world:1.0".
Definition whichImageQuestion : string :=
  "Which image should we use for your container?".

Definition doubleQuote : string := String (Ascii.ascii_of_nat 34) EmptyString.
Definition newline : string := String (Ascii.ascii_of_nat 10) EmptyString.

(** [a ?? b] *)
Definition nullish {A : Type} (a b : option A) : option A :=
  match a with
  | Some x => Some x
  | None => b
  end.
Notation "a ?? b" := (nullish a b) (at level 45, right associativity).

(** [config.cloudchamber] of [../config], with the fields the source reads. *)
Module Cloudchamber.
Record t : Type := {
  image : option string;
  location : option string;
  ipv4 : option bool;
  vcpu : option float;
  memory : option string
}.
End Cloudchamber.

Record Config : Type := { cloudchamber : Cloudchamber.t }.

(** [args] once [checkEverythingIsSet] has seen [image] and [location]. *)
Module Checked.
Record t : Type := { image : string; location : string }.
End Checked.

(** [AssignIPv4] of [./client], an enumeration declared outside
    [create.ts]; [PREDEFINED] is the member the source names. *)
Inductive AssignIPv4 : Type := PREDEFINED.

Record Network : Type := { assign_ipv4 : AssignIPv4 }.

(** What [create.ts] imports and only calls: the types of [./client] it
    passes on, and the synchronous helpers of [./common] and of the
    language.  They are taken as given. *)
Class Imports : Type := {
  EnvironmentVariable : Type;
  Label : Type;
  Deployment : Type;
  Account : Type;
  collectEnvironmentVariables :
    list EnvironmentVariable -> Config -> option (list string) ->
    option (list EnvironmentVariable);
  collectLabels : option (list string) -> option (list Label);
  interactWithUser : Args -> bool;
  checkEverythingIsSet : Args -> list string -> Error + Checked.t;
  (** the [err] of [parseImageName(value)] *)
  parseImageName_err : string -> option string;
  (** [JSON.stringify(deployment, null, 4)] *)
  stringify : Deployment -> string;
  deployment_id : Deployment -> string;
  defaults_vcpus : Account -> float;
  defaults_memory : Account -> string;
  brandColor : string -> string;
  dim : string -> string
}.

Section Command.
Context {imports : Imports}.

(** The body of [DeploymentsService.createDeploymentV2].  The key
    identifiers are an [Arg], as [askWhichSSHKeysDoTheyWantToAdd]
    returns them. *)
Record CreateDeploymentV2RequestBody : Type := {
  body_image : string;
  body_location : string;
  ssh_public_key_ids : Arg;
  environment_variables : option (list EnvironmentVariable);
  labels : option (list Label);
  body_vcpu : option float;
  body_memory : option string;
  network : option Network
}.

(** The second argument of [renderDeploymentConfiguration]. *)
Record DeploymentConfiguration : Type := {
  shown_image : string;
  shown_location : string;
  shown_network : option Network;
  shown_vcpu : float;
  shown_memory : string;
  shown_environmentVariables : option (list EnvironmentVariable);
  shown_labels : option (list Label);
  shown_env : option string
}.

Inductive CmdEvent : Type -> Type :=
| cli {X : Type} (e : CliEvent X) : CmdEvent X
| loadAccountSpinner (args : Args) : CmdEvent unit
| createDeploymentV2 (requestBody : CreateDeploymentV2RequestBody)
    : CmdEvent Deployment
| console_log (message : string) : CmdEvent unit
| startSection (heading subheading : string) : CmdEvent unit
| endSection (heading : string) : CmdEvent unit
| sshPrompts (args : Args) : CmdEvent (option SSHPublicKeyID)
| processArgument (args : list (string * option string)) (name : string)
    (promptConfig : PromptConfig) : CmdEvent string
| getLocation (location : option string) : CmdEvent string
| getNetworkInput (ipv4 : option bool) : CmdEvent (option Network)
| promptForEnvironmentVariables
    (environmentVariables : option (list EnvironmentVariable))
    (initiallySelected : list string) (allowSkipping : bool)
    : CmdEvent (option (list EnvironmentVariable))
| promptForLabels (labels : option (list Label))
    (initiallySelected : list string) (allowSkipping : bool)
    : CmdEvent (option (list Label))
| loadAccount : CmdEvent Account
| renderDeploymentConfiguration (action : string)
    (configuration : DeploymentConfiguration) : CmdEvent unit
| cancel (message : string) : CmdEvent unit
| spinner_start (message helpText : string) : CmdEvent unit
| spinner_stop : CmdEvent unit
| renderDeploymentMutationError (account : Account) (err : Error)
    : CmdEvent unit
| updateStatus (message : string) (printNewLine : bool) : CmdEvent unit
| log (message : string) : CmdEvent unit
| waitForPlacement (deployment : Deployment) : CmdEvent unit.

(** A program of the selection, as part of the command. *)
Fixpoint lift {A : Type} (p : Prog CliEvent A) : Prog CmdEvent A :=
  match p with
  | Ret a => Ret a
  | Throw err => Throw err
  | Do e k => Do (cli e) (fun o => lift (k o))
  end.

(** The [validate] callback given to [processArgument] for the image. *)
Definition validateImage (v : Arg) : option string :=
  match v with
  | AStr s =>
      parseImageName_err (if (String.length s =? 0)%nat then defaultContainerImage else s)
  | _ => Some "Unknown error"
  end.

Definition proceedPrompt : PromptConfig := {|
  type := confirm;
  question := "Proceed?";
  promptLabel := "";
  helpText := None;
  defaultValue := AUndefined;
  options := None;
  validate := None
|}.

Definition handleCreateCommand (args : Args) (config : Config)
  (environmentVariables : option (list EnvironmentVariable))
  (labels : option (list Label)) : Prog CmdEvent unit :=
  perform (startSection "Create a Cloudflare container" "Step 1 of 2") ;;
  sshKeyID <- await (sshPrompts args) ;;
  let givenImage := image args ?? Cloudchamber.image (cloudchamber config) in
  image <- await (processArgument [("image", givenImage)] "image" {|
    question := whichImageQuestion;
    promptLabel := "image";
    validate := Some validateImage;
    defaultValue :=
      match givenImage with
      | Some i => AStr i
      | None => AStr defaultContainerImage
      end;
    helpText :=
      Some ("NAME:TAG (" ++ doubleQuote ++ "latest" ++ doubleQuote
            ++ " tag is not allowed)")%string;
    type := text;
    options := None
  |}) ;;
  location <- await (getLocation
    (location args ?? Cloudchamber.location (cloudchamber config))) ;;
  keys <- lift (askWhichSSHKeysDoTheyWantToAdd args sshKeyID) ;;
  network <- await (getNetworkInput
    (ipv4 args ?? Cloudchamber.ipv4 (cloudchamber config))) ;;
  selectedEnvironmentVariables <-
    await (promptForEnvironmentVariables environmentVariables [] false) ;;
  selectedLabels <- await (promptForLabels labels [] false) ;;
  account <- await loadAccount ;;
  perform (renderDeploymentConfiguration "create" {|
    shown_image := image;
    shown_location := location;
    shown_network := network;
    shown_vcpu :=
      match vcpu args ?? Cloudchamber.vcpu (cloudchamber config) with
      | Some v => v
      | None => defaults_vcpus account
      end;
    shown_memory :=
      match memory args ?? Cloudchamber.memory (cloudchamber config) with
      | Some m => m
      | None => defaults_memory account
      end;
    shown_environmentVariables := selectedEnvironmentVariables;
    shown_labels := selectedLabels;
    shown_env := env args
  |}) ;;
  yes <- lift (await (inputPrompt proceedPrompt)) ;;
  if negb (truthy yes) then
    perform (cancel "Not creating the container")
  else
    perform (spinner_start "Creating your container"
             "shortly your container will be created") ;;
    settled <- wrap (await (createDeploymentV2 {|
      body_image := image;
      body_location := location;
      ssh_public_key_ids := keys;
      environment_variables := environmentVariables;
      labels := labels;
      body_vcpu := vcpu args ?? Cloudchamber.vcpu (cloudchamber config);
      body_memory := memory args ?? Cloudchamber.memory (cloudchamber config);
      network := network
    |})) ;;
    match settled with
    | inl err =>
        perform spinner_stop ;;
        perform (renderDeploymentMutationError account err)
    | inr deployment =>
        perform spinner_stop ;;
        perform (updateStatus "Created deployment" false) ;;
        perform (log (brandColor "id" ++ " " ++ dim (deployment_id deployment)
                    ++ newline)%string) ;;
        perform (endSection "Creating a placement for your container") ;;
        perform (startSection "Create a Cloudflare container" "Step 2 of 2") ;;
        await (waitForPlacement deployment)
    end.

(** [args.image = config.cloudchamber.image] and its like: the flags
    object is updated in place, so what follows reads the new value. *)
Definition set_image (args : Args) (v : option string) : Args := {|
  image := v; location := location args; var := var args;
  label := label args; allSshKeys := allSshKeys args;
  sshKeyId := sshKeyId args; vcpu := vcpu args; memory := memory args;
  ipv4 := ipv4 args; env := env args
|}.

Definition set_location (args : Args) (v : option string) : Args := {|
  image := image args; location := v; var := var args;
  label := label args; allSshKeys := allSshKeys args;
  sshKeyId := sshKeyId args; vcpu := vcpu args; memory := memory args;
  ipv4 := ipv4 args; env := env args
|}.

Definition createCommand (args : Args) (config : Config) : Prog CmdEvent unit :=
  await (loadAccountSpinner args) ;;
  let environmentVariables := collectEnvironmentVariables [] config (var args) in
  let labels := collectLabels (label args) in
  if negb (interactWithUser args) then
    let args :=
      match Cloudchamber.image (cloudchamber config), image args with
      | Some i, None => set_image args (Some i)
      | _, _ => args
      end in
    let args :=
      match Cloudchamber.location (cloudchamber config), location args with
      | Some l, None => set_location args (Some l)
      | _, _ => args
      end in
    match checkEverythingIsSet args ["image"; "location"] with
    | inl err => Throw err
    | inr body =>
    match parseImageName_err (Checked.image body) with
    | Some err => Throw err
    | None =>
      keysToAdd <-
        match allSshKeys args with
        | Some true =>
            keyItems <- lift (await (pollSSHKeysUntilCondition always)) ;;
            Ret (map id keyItems)
        | _ => Ret []
        end ;;
      let useIpv4 := ipv4 args ?? Cloudchamber.ipv4 (cloudchamber config) in
      let network :=
        match useIpv4 with
        | Some true => Some {| assign_ipv4 := PREDEFINED |}
        | _ => None
        end in
      deployment <- await (createDeploymentV2 {|
        body_image := Checked.image body;
        body_location := Checked.location body;
        ssh_public_key_ids := AArr keysToAdd;
        environment_variables := environmentVariables;
        labels := labels;
        body_vcpu := vcpu args ?? Cloudchamber.vcpu (cloudchamber config);
        body_memory := memory args ?? Cloudchamber.memory (cloudchamber config);
        network := network
      |}) ;;
      perform (console_log (stringify deployment))
    end
    end
  else
    handleCreateCommand args config environmentVariables labels.

(** The bodies sent to [createDeploymentV2] in a run, oldest first. *)
Definition created (c : Call CmdEvent) : list CreateDeploymentV2RequestBody :=
  match c with
  | call e _ =>
      match e with
      | createDeploymentV2 requestBody => [requestBody]
      | _ => []
      end
  end.

Definition deploymentsRequested (tr : Trace CmdEvent)
  : list CreateDeploymentV2RequestBody :=
  flat_map created tr.

End Command.

(** ** Reading a run *)

(** The prompts of a run, oldest first, each with its answer. *)
Definition prompted (c : Call CliEvent) : list (PromptConfig * (Error + Arg)) :=
  match c with
  | call e o =>
      match e in CliEvent X return Error + X -> list (PromptConfig * (Error + Arg)) with
      | inputPrompt promptConfig => fun o => [(promptConfig, o)]
      | pollSSHKeysUntilCondition _ => fun _ => []
      end o
  end.

Definition promptsShown (tr : Trace CliEvent) : list (PromptConfig * (Error + Arg)) :=
  flat_map prompted tr.

Definition isPrompt (c : Call CliEvent) : bool :=
  match prompted c with
  | [] => false
  | _ :: _ => true
  end.

(** The fetches of the account's keys in a run. *)
Definition isFetch (c : Call CliEvent) : bool :=
  match c with
  | call (pollSSHKeysUntilCondition _) _ => true
  | call (inputPrompt _) _ => false
  end.

Definition fetchCount (tr : Trace CliEvent) : nat :=
  List.length (filter isFetch tr).

(** [request.explicitKeyIds]: the [--ssh-key-id] flags, none when the
    option is absent. *)
Definition explicitKeyIds (args : Args) : list string :=
  match sshKeyId args with
  | Some ids => ids
  | None => []
  end.

(** The four shapes a run of the selection can take: the fetch alone;
    the fetch and the confirmation of the single key; the fetch and the
    three-way choice, answered otherwise than ["select"]; the fetch, the
    three-way choice answered ["select"], and the multi-select, whose
    outcome is the outcome of the run. *)
Inductive SelectionRun : Trace CliEvent * (Error + Arg) -> Prop :=
| run_unprompted (o : Error + list SSHPublicKeyItem) (result : Error + Arg) :
    SelectionRun ([call (pollSSHKeysUntilCondition always) o], result)
| run_confirmed (keyItem : SSHPublicKeyItem) (o result : Error + Arg) :
    SelectionRun
      ([call (pollSSHKeysUntilCondition always) (inr [keyItem]);
        call (inputPrompt (confirmSingleKeyPrompt (name keyItem))) o],
       result)
| run_chosen (keyItems : list SSHPublicKeyItem) (o result : Error + Arg) :
    o <> inr (AStr "select") ->
    SelectionRun
      ([call (pollSSHKeysUntilCondition always) (inr keyItems);
        call (inputPrompt multipleKeysPrompt) o],
       result)
| run_selected (keyItems : list SSHPublicKeyItem) (o : Error + Arg) :
    SelectionRun
      ([call (pollSSHKeysUntilCondition always) (inr keyItems);
        call (inputPrompt multipleKeysPrompt) (inr (AStr "select"));
        call (inputPrompt (selectKeysPrompt keyItems)) o],
       o).

(** ** Reading a run of the command *)

(** The message of a call the collaborator rejected. *)
Definition rejected {E : Type -> Type} (c : Call E) : list Error :=
  match c with
  | call _ (inl err) => [err]
  | call _ (inr _) => []
  end.

(** The rejections of a run, oldest first. *)
Definition rejections {E : Type -> Type} (tr : Trace E) : list Error :=
  flat_map rejected tr.

(** The flags as the non-interactive path leaves them: [image] and
    [location] are taken from the configuration when the command line
    has none; every other flag is as given. *)
Definition completedFlags (args : Args) (config : Config) : Args := {|
  image := image args ?? Cloudchamber.image (cloudchamber config);
  location := location args ?? Cloudchamber.location (cloudchamber config);
  var := var args;
  label := label args;
  allSshKeys := allSshKeys args;
  sshKeyId := sshKeyId args;
  vcpu := vcpu args;
  memory := memory args;
  ipv4 := ipv4 args;
  env := env args
|}.

(** The fetches of the account's keys in a run of the selection, each
    with its outcome. *)
Definition fetched (c : Call CliEvent) : list (Error + list SSHPublicKeyItem) :=
  match c with
  | call e o =>
      match e in CliEvent Y
        return Error + Y -> list (Error + list SSHPublicKeyItem) with
      | pollSSHKeysUntilCondition _ => fun o => [o]
      | inputPrompt _ => fun _ => []
      end o
  end.

Definition fetches (tr : Trace CliEvent) : list (Error + list SSHPublicKeyItem) :=
  flat_map fetched tr.

Section CommandRuns.
Context {imports : Imports}.

(** A call of the selection, seen as a call of the command. *)
Definition liftCall (c : Call CliEvent) : Call CmdEvent :=
  match c with
  | call e o => call (cli e) o
  end.

(** The collaborator the selection meets when the command has made the
    calls [done] before it. *)
Definition selectionCollaborator (w : Collaborator CmdEvent)
  (done : Trace CmdEvent) : Collaborator CliEvent :=
  fun calls X e => w (done ++ map liftCall calls) X (cli e).

(** The prompts of a run of the command, each with its answer. *)
Definition cmdPrompted (c : Call CmdEvent)
  : list (PromptConfig * (Error + Arg)) :=
  match c with
  | call e o =>
      match e in CmdEvent X
        return Error + X -> list (PromptConfig * (Error + Arg)) with
      | cli e' =>
          match e' in CliEvent Y
            return Error + Y -> list (PromptConfig * (Error + Arg)) with
          | inputPrompt promptConfig => fun o => [(promptConfig, o)]
          | pollSSHKeysUntilCondition _ => fun _ => []
          end
      | _ => fun _ => []
      end o
  end.

Definition cmdPrompts (tr : Trace CmdEvent)
  : list (PromptConfig * (Error + Arg)) :=
  flat_map cmdPrompted tr.

(** The fetches of the account's keys, each with its outcome. *)
Definition cmdFetched (c : Call CmdEvent)
  : list (Error + list SSHPublicKeyItem) :=
  match c with
  | call e o =>
      match e in CmdEvent X
        return Error + X -> list (Error + list SSHPublicKeyItem) with
      | cli e' =>
          match e' in CliEvent Y
            return Error + Y -> list (Error + list SSHPublicKeyItem) with
          | pollSSHKeysUntilCondition _ => fun o => [o]
          | inputPrompt _ => fun _ => []
          end
      | _ => fun _ => []
      end o
  end.

Definition cmdFetches (tr : Trace CmdEvent)
  : list (Error + list SSHPublicKeyItem) :=
  flat_map cmdFetched tr.

(** The bodies sent to [createDeploymentV2], each with what came back. *)
Definition settled (c : Call CmdEvent)
  : list (CreateDeploymentV2RequestBody * (Error + Deployment)) :=
  match c with
  | call e o =>
      match e in CmdEvent X
        return Error + X ->
               list (CreateDeploymentV2RequestBody * (Error + Deployment)) with
      | createDeploymentV2 requestBody => fun o => [(requestBody, o)]
      | _ => fun _ => []
      end o
  end.

Definition deploymentsSettled (tr : Trace CmdEvent)
  : list (CreateDeploymentV2RequestBody * (Error + Deployment)) :=
  flat_map settled tr.

(** The deployments [createDeploymentV2] resolved with. *)
Definition deploymentsCreated (tr : Trace CmdEvent) : list Deployment :=
  flat_map (fun s => match snd s with inr d => [d] | inl _ => [] end)
    (deploymentsSettled tr).

(** The messages given to [console.log]. *)
Definition consoleLogged (tr : Trace CmdEvent) : list string :=
  flat_map (fun c =>
    match c with
    | call e _ =>
        match e with
        | console_log message => [message]
        | _ => []
        end
    end) tr.

(** The deployments given to [waitForPlacement]. *)
Definition placementsAwaited (tr : Trace CmdEvent) : list Deployment :=
  flat_map (fun c =>
    match c with
    | call e _ =>
        match e with
        | waitForPlacement deployment => [deployment]
        | _ => []
        end
    end) tr.

(** The errors given to [renderDeploymentMutationError]. *)
Definition errorsRendered (tr : Trace CmdEvent) : list (Account * Error) :=
  flat_map (fun c =>
    match c with
    | call e _ =>
        match e with
        | renderDeploymentMutationError account err => [(account, err)]
        | _ => []
        end
    end) tr.

(** What [sshPrompts] came back with. *)
Definition sshKeysAdded (tr : Trace CmdEvent)
  : list (Error + option SSHPublicKeyID) :=
  flat_map (fun c =>
    match c with
    | call e o =>
        match e in CmdEvent X
          return Error + X -> list (Error + option SSHPublicKeyID) with
        | sshPrompts _ => fun o => [o]
        | _ => fun _ => []
        end o
    end) tr.

(** The calls of the non-interactive path: the account is loaded, the
    keys are fetched, the deployment is requested and printed. *)
Definition quietCall (c : Call CmdEvent) : bool :=
  match c with
  | call e _ =>
      match e with
      | loadAccountSpinner _ => true
      | cli (pollSSHKeysUntilCondition _) => true
      | createDeploymentV2 _ => true
      | console_log _ => true
      | _ => false
      end
  end.

End CommandRuns.

(** ** Sample collaborators and inputs *)

(** A collaborator that settles every fetch with [keyItems] and answers
    the [n]-th prompt with the [n]-th of [answers]. *)
Definition scripted (keyItems : Error + list SSHPublicKeyItem)
  (answers : list Arg) : Collaborator CliEvent :=
  fun done X e =>
    match e in CliEvent X return Error + X with
    | pollSSHKeysUntilCondition _ => keyItems
    | inputPrompt _ => inr (nth (List.length (promptsShown done)) answers AUndefined)
    end.

Definition noFlags : Args := {|
  image := None; location := None; var := None; label := None;
  allSshKeys := None; sshKeyId := None; vcpu := None; memory := None;
  ipv4 := None; env := None
|}.

Definition withSshKeyIds (ids : list string) : Args := {|
  image := None; location := None; var := None; label := None;
  allSshKeys := None; sshKeyId := Some ids; vcpu := None; memory := None;
  ipv4 := None; env := None
|}.

Definition withAllSshKeys (ids : option (list string)) : Args := {|
  image := None; location := None; var := None; label := None;
  allSshKeys := Some true; sshKeyId := ids; vcpu := None; memory := None;
  ipv4 := None; env := None
|}.

Definition k1 : SSHPublicKeyItem := {| id := "id-1"; name := "laptop" |}.
Definition k2 : SSHPublicKeyItem := {| id := "id-2"; name := "desktop" |}.

(** Imports for a sample run: no variable and no label is collected,
    the user is never interacted with, an image and a location are
    demanded, and every image name parses. *)
Definition sampleImports : Imports := {|
  EnvironmentVariable := string * string;
  Label := string * string;
  Deployment := string;
  Account := unit;
  collectEnvironmentVariables := fun _ _ _ => None;
  collectLabels := fun _ => None;
  interactWithUser := fun _ => false;
  checkEverythingIsSet := fun args _ =>
    match image args, location args with
    | Some i, Some l => inr {| Checked.image := i; Checked.location := l |}
    | None, _ => inl "image is required but it's not passed as an argument"
    | _, None => inl "location is required but it's not passed as an argument"
    end;
  parseImageName_err := fun _ => None;
  stringify := fun deployment => deployment;
  deployment_id := fun deployment => deployment;
  defaults_vcpus := fun _ => 1%float;
  defaults_memory := fun _ => "1GB";
  brandColor := fun s => s;
  dim := fun s => s
|}.

(** A collaborator of the command: the account has [keyItems], every
    prompt is answered [answer], and a deployment is created. *)
Definition scriptedCommand (keyItems : list SSHPublicKeyItem) (answer : Arg)
  : Collaborator (@CmdEvent sampleImports) :=
  fun done X e =>
    match e in CmdEvent X return Error + X with
    | cli e =>
        match e in CliEvent Y return Error + Y with
        | pollSSHKeysUntilCondition _ => inr keyItems
        | inputPrompt _ => inr answer
        end
    | loadAccountSpinner _ => inr tt
    | createDeploymentV2 _ => inr "deployment-1"
    | console_log _ => inr tt
    | startSection _ _ => inr tt
    | endSection _ => inr tt
    | sshPrompts _ => inr None
    | processArgument _ _ _ => inr defaultContainerImage
    | getLocation _ => inr "sfo06"
    | getNetworkInput _ => inr None
    | promptForEnvironmentVariables _ _ _ => inr None
    | promptForLabels _ _ _ => inr None
    | loadAccount => inr tt
    | renderDeploymentConfiguration _ _ => inr tt
    | cancel _ => inr tt
    | spinner_start _ _ => inr tt
    | spinner_stop => inr tt
    | renderDeploymentMutationError _ _ => inr tt
    | updateStatus _ _ => inr tt
    | log _ => inr tt
    | waitForPlacement _ => inr tt
    end.

Definition sampleConfig : Config := {|
  cloudchamber := {|
    Cloudchamber.image := Some "docker.io/library/busybox:1.36";
    Cloudchamber.location := Some "sfo06";
    Cloudchamber.ipv4 := None;
    Cloudchamber.vcpu := None;
    Cloudchamber.memory := None
  |}
|}.

Definition sampleBody (keys : list string)
  : @CreateDeploymentV2RequestBody sampleImports := {|
  body_image := "docker.io/library/busybox:1.36";
  body_location := "sfo06";
  ssh_public_key_ids := AArr keys;
  environment_variables := None;
  labels := None;
  body_vcpu := None;
  body_memory := None;
  network := None
|}.

(** A collaborator of the command that adds the key [added] in
    [sshPrompts] and settles [createDeploymentV2] with [creation]. *)
Definition scriptedCreation (keyItems : list SSHPublicKeyItem) (answer : Arg)
  (added : option SSHPublicKeyID) (creation : Error + string)
  : Collaborator (@CmdEvent sampleImports) :=
  fun done X e =>
    match e in CmdEvent X return Error + X with
    | createDeploymentV2 _ => creation
    | sshPrompts _ => inr added
    | e' => scriptedCommand keyItems answer done _ e'
    end.

(** Flags without an image, and a configuration without one. *)
Definition configWithoutImage : Config := {|
  cloudchamber := {|
    Cloudchamber.image := None;
    Cloudchamber.location := Some "sfo06";
    Cloudchamber.ipv4 := Some true;
    Cloudchamber.vcpu := None;
    Cloudchamber.memory := Some "2GB"
  |}
|}.

Definition withIpv4 (v : bool) : Args := {|
  image := Some "docker.io/library/nginx:1.25"; location := None;
  var := None; label := None; allSshKeys := None; sshKeyId := None;
  vcpu := Some 2%float; memory := None; ipv4 := Some v; env := None
|}.

(** The body the interactive command sends against [scriptedCommand]. *)
Definition interactiveBody (keys : list string)
  : @CreateDeploymentV2RequestBody sampleImports := {|
  body_image := defaultContainerImage;
  body_location := "sfo06";
  ssh_public_key_ids := AArr keys;
  environment_variables := None;
  labels := None;
  body_vcpu := None;
  body_memory := None;
  network := None
|}.

(** The body sent for [withIpv4 false] under [configWithoutImage]. *)
Definition nginxBody : @CreateDeploymentV2RequestBody sampleImports := {|
  body_image := "docker.io/library/nginx:1.25";
  body_location := "sfo06";
  ssh_public_key_ids := AArr [];
  environment_variables := None;
  labels := None;
  body_vcpu := Some 2%float;
  body_memory := Some "2GB";
  network := None
|}.

(** ** Running the selection *)

Lemma run_await (E : Type -> Type) (A X : Type) (w : Collaborator E)
  (e : E X) (k : X -> Prog E A) (done : Trace E) :
  run w (x <- await e ;; k x) done =
  match w done _ e with
  | inl err => (done ++ [call e (inl err)], inl err)
  | inr x => run w (k x) (done ++ [call e (inr x)])
  end.
Proof.
  simpl. destruct (w done X e); reflexivity.
Qed.

(** A fetch that is rejected ends the selection: the rejection is
    thrown on, and nothing else is called. *)
Lemma run_fetch_rejected (w : Collaborator CliEvent) (args : Args)
  (key : option SSHPublicKeyID) (err : Error) :
  w [] _ (pollSSHKeysUntilCondition always) = inl err ->
  run w (askWhichSSHKeysDoTheyWantToAdd args key) [] =
  ([call (pollSSHKeysUntilCondition always) (inl err)], inl err).
Proof.
  intros Hfetch. unfold askWhichSSHKeysDoTheyWantToAdd.
  rewrite run_await, Hfetch. reflexivity.
Qed.

Lemma run_fetch_settled (w : Collaborator CliEvent)
  (keyItems : list SSHPublicKeyItem)
  (k : list SSHPublicKeyItem -> Prog CliEvent Arg) :
  w [] _ (pollSSHKeysUntilCondition always) = inr keyItems ->
  run w (keyItems <- await (pollSSHKeysUntilCondition always) ;; k keyItems) [] =
  run w (k keyItems) [call (pollSSHKeysUntilCondition always) (inr keyItems)].
Proof.
  intros Hfetch. rewrite run_await, Hfetch. reflexivity.
Qed.

(** Case analysis on the flags the selection reads. *)
Ltac flags args :=
  destruct (allSshKeys args) as [[|]|] eqn:?;
  destruct (sshKeyId args) as [[|? ?]|] eqn:?.

Lemma selection_runs (w : Collaborator CliEvent) (args : Args)
  (key : option SSHPublicKeyID) :
  SelectionRun (run w (askWhichSSHKeysDoTheyWantToAdd args key) []).
Proof.
  unfold askWhichSSHKeysDoTheyWantToAdd.
  rewrite run_await.
  destruct (w [] _ (pollSSHKeysUntilCondition always)) as [err|keyItems];
    [apply run_unprompted|].
  cbv zeta.
  destruct (allSshKeys args) as [[|]|];
    try apply run_unprompted;
    (destruct (sshKeyId args) as [[|? ?]|]; try apply run_unprompted);
    (destruct keyItems as [|a [|b l]];
     cbn [map List.length Nat.eqb Nat.leb app];
     [ apply run_unprompted
     | rewrite run_await;
       match goal with
       | |- context [w ?done ?X ?e] => destruct (w done X e) as [?|yes]
       end;
       [apply run_confirmed | destruct (truthy yes); apply run_confirmed]
     | rewrite run_await;
       match goal with
       | |- context [w ?done ?X ?e] => destruct (w done X e) as [?|res]
       end;
       [ apply run_chosen; discriminate
       | destruct res as [s| | | |];
         try (apply run_chosen; discriminate);
         cbn [strictEqStr];
         destruct (String.eqb_spec s "all") as [->|?];
         [ apply run_chosen; discriminate |];
         destruct (String.eqb_spec s "select") as [->|?];
         [ rewrite run_await;
           match goal with
           | |- context [w ?done ?X ?e] => destruct (w done X e)
           end; apply run_selected
         | apply run_chosen; congruence ] ] ]).
Qed.

(** Calls are only ever added to the calls made so far. *)
Lemma run_extends (E : Type -> Type) (A : Type) (w : Collaborator E)
  (p : Prog E A) (done : Trace E) :
  exists more : Trace E, fst (run w p done) = done ++ more.
Proof.
  revert done. induction p as [a|err|X e k IH]; intros done.
  - exists []. simpl. now rewrite app_nil_r.
  - exists []. simpl. now rewrite app_nil_r.
  - simpl. destruct (IH (w done X e) (done ++ [call e (w done X e)])) as [more ->].
    exists (call e (w done X e) :: more). now rewrite <- app_assoc.
Qed.

(** ** The selection, branch by branch *)

(** C3: with [allSshKeys] true the result is every key the provider
    returned, in its order, whatever [sshKeyId] and [key] are, and the
    fetch is the only call made: no prompt is shown. *)
Theorem allSshKeys_returns_every_key (w : Collaborator CliEvent) (args : Args)
  (key : option SSHPublicKeyID) (keyItems : list SSHPublicKeyItem) :
  allSshKeys args = Some true ->
  w [] _ (pollSSHKeysUntilCondition always) = inr keyItems ->
  run w (askWhichSSHKeysDoTheyWantToAdd args key) [] =
    ([call (pollSSHKeysUntilCondition always) (inr keyItems)],
     inr (AArr (map id keyItems)))
  /\ promptsShown (fst (run w (askWhichSSHKeysDoTheyWantToAdd args key) [])) = [].
Proof.
  intros Hall Hfetch.
  assert (Hrun : run w (askWhichSSHKeysDoTheyWantToAdd args key) [] =
    ([call (pollSSHKeysUntilCondition always) (inr keyItems)],
     inr (AArr (map id keyItems)))).
  { unfold askWhichSSHKeysDoTheyWantToAdd.
    rewrite run_fetch_settled with (keyItems := keyItems) by assumption.
    rewrite Hall. reflexivity. }
  split; [exact Hrun | rewrite Hrun; reflexivity].
Qed.

Lemma allSshKeys_returns_every_key_witness :
  run (scripted (inr [k1; k2]) []) 
      (askWhichSSHKeysDoTheyWantToAdd (withAllSshKeys (Some ["id-9"])) (Some "id-7")) [] =
    ([call (pollSSHKeysUntilCondition always) (inr [k1; k2])],
     inr (AArr ["id-1"; "id-2"])).
Proof.
  apply (proj1 (@allSshKeys_returns_every_key (scripted (inr [k1; k2]) [])
           (withAllSshKeys (Some ["id-9"])) (Some "id-7") [k1; k2]
           eq_refl eq_refl)).
Defined.

(** C2, as the code has it: without [allSshKeys] and with [sshKeyId]
    not empty, the result is [sshKeyId] itself, followed by [key] when
    [key] is given and is not the empty string; a [key] that is absent
    or empty adds nothing.  A [key] already in [sshKeyId] is added all
    the same, and no prompt is shown. *)
Theorem sshKeyId_with_truthy_key_appended (w : Collaborator CliEvent)
  (args : Args) (key : option SSHPublicKeyID)
  (keyItems : list SSHPublicKeyItem) :
  allSshKeys args <> Some true ->
  explicitKeyIds args <> [] ->
  w [] _ (pollSSHKeysUntilCondition always) = inr keyItems ->
  run w (askWhichSSHKeysDoTheyWantToAdd args key) [] =
    ([call (pollSSHKeysUntilCondition always) (inr keyItems)],
     inr (AArr (explicitKeyIds args ++
                match key with
                | Some k => if String.eqb k "" then [] else [k]
                | None => []
                end)))
  /\ promptsShown (fst (run w (askWhichSSHKeysDoTheyWantToAdd args key) [])) = [].
Proof.
  intros Hall Hids Hfetch.
  assert (Hrun : run w (askWhichSSHKeysDoTheyWantToAdd args key) [] =
    ([call (pollSSHKeysUntilCondition always) (inr keyItems)],
     inr (AArr (explicitKeyIds args ++
                match key with
                | Some k => if String.eqb k "" then [] else [k]
                | None => []
                end)))).
  { unfold askWhichSSHKeysDoTheyWantToAdd, explicitKeyIds in *.
    rewrite run_fetch_settled with (keyItems := keyItems) by assumption.
    flags args; try congruence;
      destruct key as [k|]; simpl; try destruct (String.eqb k "");
      rewrite ?app_nil_r; reflexivity. }
  split; [exact Hrun | rewrite Hrun; reflexivity].
Qed.

Lemma sshKeyId_with_truthy_key_appended_witness :
  run (scripted (inr [k1]) [])
      (askWhichSSHKeysDoTheyWantToAdd (withSshKeyIds ["id-1"; "id-5"]) (Some "id-1")) [] =
    ([call (pollSSHKeysUntilCondition always) (inr [k1])],
     inr (AArr ["id-1"; "id-5"; "id-1"])).
Proof.
  apply (proj1 (@sshKeyId_with_truthy_key_appended (scripted (inr [k1]) [])
           (withSshKeyIds ["id-1"; "id-5"]) (Some "id-1") [k1]
           ltac:(discriminate) ltac:(discriminate) eq_refl)).
Defined.

(** C2 as stated fails: an empty string is a key that was provided,
    and the code leaves it out. *)
Lemma empty_key_is_not_appended :
  snd (run (scripted (inr [k1]) [])
         (askWhichSSHKeysDoTheyWantToAdd (withSshKeyIds ["id-5"]) (Some "")) [])
    = inr (AArr ["id-5"])
  /\ AArr ["id-5"] <> AArr (["id-5"] ++ [""]).
Proof.
  split; [reflexivity | discriminate].
Qed.

(** C6: without flags and with no key on the account the result is
    empty, and the fetch is the only call made. *)
Theorem no_key_no_prompt (w : Collaborator CliEvent) (args : Args)
  (key : option SSHPublicKeyID) :
  allSshKeys args <> Some true ->
  explicitKeyIds args = [] ->
  w [] _ (pollSSHKeysUntilCondition always) = inr [] ->
  run w (askWhichSSHKeysDoTheyWantToAdd args key) [] =
    ([call (pollSSHKeysUntilCondition always) (inr [])], inr (AArr []))
  /\ promptsShown (fst (run w (askWhichSSHKeysDoTheyWantToAdd args key) [])) = [].
Proof.
  intros Hall Hids Hfetch.
  assert (Hrun : run w (askWhichSSHKeysDoTheyWantToAdd args key) [] =
    ([call (pollSSHKeysUntilCondition always) (inr [])], inr (AArr []))).
  { unfold askWhichSSHKeysDoTheyWantToAdd, explicitKeyIds in *.
    rewrite run_fetch_settled with (keyItems := []) by assumption.
    flags args; try congruence; reflexivity. }
  split; [exact Hrun | rewrite Hrun; reflexivity].
Qed.

Lemma no_key_no_prompt_witness :
  run (scripted (inr []) [ABool true])
      (askWhichSSHKeysDoTheyWantToAdd noFlags (Some "id-7")) [] =
    ([call (pollSSHKeysUntilCondition always) (inr [])], inr (AArr [])).
Proof.
  apply (proj1 (@no_key_no_prompt (scripted (inr []) [ABool true]) noFlags
           (Some "id-7") ltac:(discriminate) eq_refl eq_refl)).
Defined.

(** C4: without flags and with exactly one key on the account, the
    confirmation is shown for that key, with [false] as its default.
    The result is that key's identifier when the answer is truthy, and
    empty otherwise: yes gives the key; no, and the default standing in
    for no answer, give nothing. *)
Theorem single_key_is_confirmed (w : Collaborator CliEvent) (args : Args)
  (key : option SSHPublicKeyID) (keyItem : SSHPublicKeyItem) (answer : Arg) :
  let fetched := [call (pollSSHKeysUntilCondition always) (inr [keyItem])] in
  let prompt := confirmSingleKeyPrompt (name keyItem) in
  let result := snd (run w (askWhichSSHKeysDoTheyWantToAdd args key) []) in
  allSshKeys args <> Some true ->
  explicitKeyIds args = [] ->
  w [] _ (pollSSHKeysUntilCondition always) = inr [keyItem] ->
  w fetched _ (inputPrompt prompt) = inr answer ->
  promptsShown (fst (run w (askWhichSSHKeysDoTheyWantToAdd args key) []))
    = [(prompt, inr answer)]
  /\ type prompt = confirm
  /\ defaultValue prompt = ABool false
  /\ result = inr (AArr (if truthy answer then [id keyItem] else []))
  /\ (answer = ABool true -> result = inr (AArr [id keyItem]))
  /\ (answer = ABool false -> result = inr (AArr []))
  /\ (answer = defaultValue prompt -> result = inr (AArr [])).
Proof.
  intros fetched prompt result Hall Hids Hfetch Hanswer.
  assert (Hrun : run w (askWhichSSHKeysDoTheyWantToAdd args key) [] =
    (fetched ++ [call (inputPrompt prompt) (inr answer)],
     inr (AArr (if truthy answer then [id keyItem] else [])))).
  { unfold askWhichSSHKeysDoTheyWantToAdd, explicitKeyIds in *.
    rewrite run_fetch_settled with (keyItems := [keyItem]) by assumption.
    fold fetched.
    flags args; try congruence; simpl;
      fold prompt; rewrite Hanswer; simpl; destruct (truthy answer); reflexivity. }
  subst result. rewrite Hrun. simpl.
  repeat split; try reflexivity; intros ->; reflexivity.
Qed.

Lemma single_key_is_confirmed_witness :
  snd (run (scripted (inr [k1]) [ABool true])
         (askWhichSSHKeysDoTheyWantToAdd noFlags None) [])
    = inr (AArr ["id-1"]).
Proof.
  destruct (@single_key_is_confirmed (scripted (inr [k1]) [ABool true]) noFlags None
              k1 (ABool true)
              ltac:(discriminate) eq_refl eq_refl eq_refl)
    as (_ & _ & _ & _ & Hyes & _).
  exact (Hyes eq_refl).
Defined.

(** C5: without flags and with two keys or more on the account, the
    three-way choice is shown.  The answer ["all"] gives every key;
    ["select"] shows the multi-select and gives back what was submitted
    there; any other answer, ["none"] or not, gives the empty result
    and throws nothing. *)
Theorem several_keys_three_way_choice (w : Collaborator CliEvent) (args : Args)
  (key : option SSHPublicKeyID) (keyItems : list SSHPublicKeyItem)
  (answer : Arg) :
  let fetched := [call (pollSSHKeysUntilCondition always) (inr keyItems)] in
  let chosen := fetched ++ [call (inputPrompt multipleKeysPrompt) (inr answer)] in
  let outcome := run w (askWhichSSHKeysDoTheyWantToAdd args key) [] in
  allSshKeys args <> Some true ->
  explicitKeyIds args = [] ->
  w [] _ (pollSSHKeysUntilCondition always) = inr keyItems ->
  2 <= List.length keyItems ->
  w fetched _ (inputPrompt multipleKeysPrompt) = inr answer ->
  type multipleKeysPrompt = select
  /\ option_map (map value) (options multipleKeysPrompt)
       = Some ["all"; "select"; "none"]
  /\ (answer = AStr "all" ->
      outcome = (chosen, inr (AArr (map id keyItems))))
  /\ (answer = AStr "select" ->
      forall submitted : Arg,
        w chosen _ (inputPrompt (selectKeysPrompt keyItems)) = inr submitted ->
        outcome =
          (chosen ++ [call (inputPrompt (selectKeysPrompt keyItems)) (inr submitted)],
           inr submitted))
  /\ (answer <> AStr "all" -> answer <> AStr "select" ->
      outcome = (chosen, inr (AArr []))).
Proof.
  intros fetched chosen outcome Hall Hids Hfetch Hlen Hanswer.
  assert (Hrun : outcome =
    run w
      (if strictEqStr answer "all" then Ret (AArr (map id keyItems))
       else if strictEqStr answer "select" then
         resKeys <- await (inputPrompt (selectKeysPrompt keyItems)) ;; Ret resKeys
       else Ret (AArr []))
      chosen).
  { subst outcome. unfold askWhichSSHKeysDoTheyWantToAdd, explicitKeyIds in *.
    rewrite run_fetch_settled with (keyItems := keyItems) by assumption.
    fold fetched.
    destruct keyItems as [|a [|b l]]; simpl in Hlen; try lia.
    flags args; try congruence;
      cbv zeta; cbn [map List.length Nat.eqb Nat.leb];
      rewrite run_await, Hanswer; reflexivity. }
  split; [reflexivity|]. split; [reflexivity|].
  rewrite Hrun. split; [|split].
  - intros ->. reflexivity.
  - intros -> submitted Hsubmitted. cbn [strictEqStr String.eqb Ascii.eqb Bool.eqb].
    rewrite run_await, Hsubmitted. reflexivity.
  - intros Hnotall Hnotselect.
    destruct answer as [s| | | |]; try reflexivity.
    cbn [strictEqStr].
    destruct (String.eqb_spec s "all") as [->|_]; [congruence|].
    destruct (String.eqb_spec s "select") as [->|_]; [congruence|].
    reflexivity.
Qed.

Lemma several_keys_three_way_choice_witness :
  run (scripted (inr [k1; k2]) [AStr "select"; AArr ["id-2"]])
      (askWhichSSHKeysDoTheyWantToAdd noFlags None) [] =
    ([call (pollSSHKeysUntilCondition always) (inr [k1; k2]);
      call (inputPrompt multipleKeysPrompt) (inr (AStr "select"));
      call (inputPrompt (selectKeysPrompt [k1; k2])) (inr (AArr ["id-2"]))],
     inr (AArr ["id-2"])).
Proof.
  destruct (@several_keys_three_way_choice
              (scripted (inr [k1; k2]) [AStr "select"; AArr ["id-2"]]) noFlags None
              [k1; k2] (AStr "select")
              ltac:(discriminate) eq_refl eq_refl (le_n 2) eq_refl)
    as (_ & _ & _ & Hselect & _).
  exact (Hselect eq_refl (AArr ["id-2"]) eq_refl).
Defined.

(** C7: every multi-select this procedure shows carries a validation
    that turns down the empty selection and anything that is not an
    array, each with a message, and lets every non-empty array pass; so
    when the value the prompt delivers passes it, the procedure returns
    a non-empty list. *)
Theorem multiselect_validation (w : Collaborator CliEvent) (args : Args)
  (key : option SSHPublicKeyID) (promptConfig : PromptConfig) (submitted : Arg) :
  let outcome := run w (askWhichSSHKeysDoTheyWantToAdd args key) [] in
  In (promptConfig, inr submitted) (promptsShown (fst outcome)) ->
  type promptConfig = multiselect ->
  exists check : Arg -> option string,
    validate promptConfig = Some check
    /\ check (AArr []) = Some "Select atleast one ssh key!"
    /\ (forall v : Arg, isArray v = false -> check v = Some "unknown error")
    /\ (forall (x : string) (l : list string), check (AArr (x :: l)) = None)
    /\ (check submitted = None ->
        exists (x : string) (l : list string), snd outcome = inr (AArr (x :: l))).
Proof.
  intros outcome Hshown Hmulti. subst outcome.
  destruct (selection_runs w args key) as [o r|keyItem o r|keyItems o r _|keyItems o];
    cbn [fst snd promptsShown flat_map prompted app In] in *.
  - contradiction.
  - destruct Hshown as [[= <- _]|[]]. discriminate.
  - destruct Hshown as [[= <- _]|[]]. discriminate.
  - destruct Hshown as [[= <- _]|[[= <- ->]|[]]]; [discriminate|].
    exists validateSelectedKeys. split; [reflexivity|].
    split; [reflexivity|]. split; [|split].
    + intros [| | | |] Harr; try reflexivity. discriminate.
    + reflexivity.
    + destruct submitted as [?|?|[|x l]| |?]; try discriminate.
      intros _. exists x, l. reflexivity.
Qed.

Lemma multiselect_validation_witness :
  exists (x : string) (l : list string),
    snd (run (scripted (inr [k1; k2]) [AStr "select"; AArr ["id-2"]])
           (askWhichSSHKeysDoTheyWantToAdd noFlags None) [])
      = inr (AArr (x :: l)).
Proof.
  destruct (@multiselect_validation
              (scripted (inr [k1; k2]) [AStr "select"; AArr ["id-2"]]) noFlags None
              (selectKeysPrompt [k1; k2]) (AArr ["id-2"])
              (or_intror (or_introl eq_refl)) eq_refl)
    as (check & Hcheck & _ & _ & _ & Haccepted).
  apply Haccepted.
  injection Hcheck as <-. reflexivity.
Defined.

(** C8: whatever the flags and the answers, the first call of a run is
    the fetch of the account's keys, settled as the provider settles
    it; every later call is a prompt, so the provider is invoked once,
    and before any prompt. *)
Theorem one_fetch_before_any_prompt (w : Collaborator CliEvent) (args : Args)
  (key : option SSHPublicKeyID) :
  let calls := fst (run w (askWhichSSHKeysDoTheyWantToAdd args key) []) in
  exists later : Trace CliEvent,
    calls = call (pollSSHKeysUntilCondition always)
              (w [] _ (pollSSHKeysUntilCondition always)) :: later
    /\ forallb isPrompt later = true
    /\ fetchCount calls = 1.
Proof.
  intros calls. subst calls.
  assert (Hfirst : exists later,
    fst (run w (askWhichSSHKeysDoTheyWantToAdd args key) []) =
    call (pollSSHKeysUntilCondition always)
      (w [] _ (pollSSHKeysUntilCondition always)) :: later).
  { unfold askWhichSSHKeysDoTheyWantToAdd. cbn [bind await run app].
    apply run_extends. }
  destruct Hfirst as [later Hfirst]. exists later. split; [exact Hfirst|].
  revert Hfirst.
  destruct (selection_runs w args key) as [o r|keyItem o r|keyItems o r _|keyItems o];
    cbn [fst]; intros [= _ <-]; split; reflexivity.
Qed.

(** C9: with [allSshKeys] true, or with no [sshKeyId], two runs against
    the same collaborator that differ in [key] alone make the same calls
    and end alike; a key chosen before is then not added for its own
    sake. *)
Theorem key_only_matters_with_sshKeyId (w : Collaborator CliEvent) (args : Args)
  (key key' : option SSHPublicKeyID) :
  allSshKeys args = Some true \/ explicitKeyIds args = [] ->
  run w (askWhichSSHKeysDoTheyWantToAdd args key) [] =
  run w (askWhichSSHKeysDoTheyWantToAdd args key') [].
Proof.
  unfold askWhichSSHKeysDoTheyWantToAdd, explicitKeyIds.
  intros Hflags. rewrite !run_await.
  destruct (w [] _ (pollSSHKeysUntilCondition always)) as [err|keyItems];
    [reflexivity|].
  cbv zeta.
  destruct Hflags as [-> | Hnone]; [reflexivity|].
  destruct (sshKeyId args) as [[|? ?]|]; try discriminate; reflexivity.
Qed.

Lemma key_only_matters_with_sshKeyId_witness :
  run (scripted (inr [k1]) [ABool true])
      (askWhichSSHKeysDoTheyWantToAdd noFlags (Some "id-2")) [] =
  run (scripted (inr [k1]) [ABool true])
      (askWhichSSHKeysDoTheyWantToAdd noFlags None) [].
Proof.
  apply (@key_only_matters_with_sshKeyId (scripted (inr [k1]) [ABool true])
           noFlags (Some "id-2") None (or_intror eq_refl)).
Defined.

(** C1, as the code has it: a run shows one prompt at most, but for the
    three-way choice answered ["select"], which the multi-select
    follows as the second and last prompt. *)
Theorem at_most_one_prompt_unless_select (w : Collaborator CliEvent)
  (args : Args) (key : option SSHPublicKeyID) :
  let shown := promptsShown (fst (run w (askWhichSSHKeysDoTheyWantToAdd args key) [])) in
  List.length shown <= 1
  \/ exists (keyItems : list SSHPublicKeyItem) (o : Error + Arg),
       shown = [(multipleKeysPrompt, inr (AStr "select"));
                (selectKeysPrompt keyItems, o)].
Proof.
  intros shown. subst shown.
  destruct (selection_runs w args key) as [o r|keyItem o r|keyItems o r _|keyItems o];
    cbn [fst promptsShown flat_map prompted app List.length].
  - left. lia.
  - left. lia.
  - left. lia.
  - right. exists keyItems, o. reflexivity.
Qed.

(** C1 as stated fails: with two keys and no flags, answering
    ["select"] brings up a second prompt. *)
Lemma select_shows_two_prompts :
  map (fun shown => type (fst shown))
    (promptsShown
       (fst (run (scripted (inr [k1; k2]) [AStr "select"; AArr ["id-2"]])
               (askWhichSSHKeysDoTheyWantToAdd noFlags None) [])))
  = [select; multiselect]
  /\ ~ (List.length
         (promptsShown
           (fst (run (scripted (inr [k1; k2]) [AStr "select"; AArr ["id-2"]])
                   (askWhichSSHKeysDoTheyWantToAdd noFlags None) [])))
       <= 1).
Proof.
  split; [reflexivity | cbn; lia].
Qed.

(** ** The command without interaction *)

Section CommandFacts.
Context {imports : Imports}.

(** C10: when [createCommand] does not interact with the user, a body
    it sends to [createDeploymentV2] has for [ssh_public_key_ids] every
    key identifier of the account, as the one fetch after
    [loadAccountSpinner] returned them, when [allSshKeys] is true, and
    the empty list otherwise, whatever [sshKeyId] holds. *)
Theorem non_interactive_ssh_public_key_ids (w : Collaborator CmdEvent)
  (args : Args) (config : Config) (requestBody : CreateDeploymentV2RequestBody) :
  interactWithUser args = false ->
  In requestBody (deploymentsRequested (fst (run w (createCommand args config) []))) ->
  match allSshKeys args with
  | Some true =>
      exists keyItems : list SSHPublicKeyItem,
        w [call (loadAccountSpinner args) (inr tt)] _
          (cli (pollSSHKeysUntilCondition always)) = inr keyItems
        /\ ssh_public_key_ids requestBody = AArr (map id keyItems)
  | _ => ssh_public_key_ids requestBody = AArr []
  end.
Proof.
  intros Hquiet. unfold createCommand.
  rewrite run_await.
  destruct (w [] _ (loadAccountSpinner args)) as [err|[]]; [intros []|].
  rewrite Hquiet. cbn [negb]. cbv zeta.
  match goal with
  | |- context [checkEverythingIsSet ?a ?l] =>
      assert (Hsame : allSshKeys a = allSshKeys args)
        by (destruct (Cloudchamber.image (cloudchamber config)), (image args);
            cbn [set_image location];
            destruct (Cloudchamber.location (cloudchamber config)), (location args);
            reflexivity);
      generalize dependent a; intros args' Hsame
  end.
  rewrite Hsame. clear Hsame.
  destruct (checkEverythingIsSet args' ["image"; "location"]) as [err|body];
    [intros []|].
  destruct (parseImageName_err (Checked.image body)) as [err|]; [intros []|].
  destruct (allSshKeys args) as [[|]|];
    cbn [bind await perform lift run app];
    repeat match goal with
    | |- context [w ?done ?X ?e] =>
        let o := fresh "o" in
        remember (w done X e) as o; destruct o; cbn [bind await perform lift run app]
    end;
    cbn [fst deploymentsRequested flat_map created app In];
    intros Hsent; repeat destruct Hsent as [Hsent|Hsent]; try contradiction;
    subst requestBody; cbn [ssh_public_key_ids]; try reflexivity;
    eexists; split; reflexivity.
Qed.

End CommandFacts.

Lemma non_interactive_ssh_public_key_ids_witness :
  exists keyItems : list SSHPublicKeyItem,
    scriptedCommand [k1; k2] AUndefined
      [call (loadAccountSpinner (withAllSshKeys (Some ["id-9"]))) (inr tt)] _
      (cli (pollSSHKeysUntilCondition always)) = inr keyItems
    /\ AArr ["id-1"; "id-2"] = AArr (map id keyItems).
Proof.
  exact (@non_interactive_ssh_public_key_ids sampleImports
           (scriptedCommand [k1; k2] AUndefined)
           (withAllSshKeys (Some ["id-9"])) sampleConfig
           (sampleBody ["id-1"; "id-2"]) eq_refl (or_introl eq_refl)).
Defined.

(** The interactive path, with one key on the account and every prompt
    answered yes: the key confirmed is the key sent. *)
Example interactive_sends_the_selection :
  deploymentsRequested
    (fst (run (scriptedCommand [k1] (ABool true))
            (handleCreateCommand noFlags sampleConfig None None) []))
  = [{| body_image := defaultContainerImage;
        body_location := "sfo06";
        ssh_public_key_ids := AArr ["id-1"];
        environment_variables := None;
        labels := None;
        body_vcpu := None;
        body_memory := None;
        network := None |}].
Proof. reflexivity. Qed.

(** Without [allSshKeys] the same command sends no key, though
    [sshKeyId] names one. *)
Example non_interactive_ignores_sshKeyId :
  deploymentsRequested
    (fst (run (scriptedCommand [k1; k2] AUndefined)
            (createCommand (withSshKeyIds ["id-1"]) sampleConfig) []))
  = [sampleBody []].
Proof. reflexivity. Qed.

(** ** How runs compose *)

Lemma run_bind (E : Type -> Type) (A B : Type) (w : Collaborator E)
  (p : Prog E A) (f : A -> Prog E B) (done : Trace E) :
  run w (bind p f) done =
  match snd (run w p done) with
  | inl err => (fst (run w p done), inl err)
  | inr a => run w (f a) (fst (run w p done))
  end.
Proof.
  revert done. induction p as [a|err|X e k IH]; intros done; simpl.
  - reflexivity.
  - reflexivity.
  - apply IH.
Qed.

Lemma run_await_end (E : Type -> Type) (X : Type) (w : Collaborator E)
  (e : E X) (done : Trace E) :
  run w (await e) done = (done ++ [call e (w done _ e)], w done _ e).
Proof.
  simpl. destruct (w done X e); reflexivity.
Qed.

Section Lifting.
Context {imports : Imports}.

(** The selection inside the command makes the calls it makes alone,
    against the collaborator the command has left it. *)
Lemma run_lift (A : Type) (w : Collaborator CmdEvent) (p : Prog CliEvent A)
  (done : Trace CmdEvent) :
  run w (lift p) done =
  (done ++ map liftCall (fst (run (selectionCollaborator w done) p [])),
   snd (run (selectionCollaborator w done) p [])).
Proof.
  assert (Hgen : forall calls : Trace CliEvent,
    run w (lift p) (done ++ map liftCall calls) =
    (done ++ map liftCall (fst (run (selectionCollaborator w done) p calls)),
     snd (run (selectionCollaborator w done) p calls))).
  { induction p as [a|err|X e k IH]; intros calls; simpl.
    - reflexivity.
    - reflexivity.
    - unfold selectionCollaborator at 1 2.
      rewrite <- IH. rewrite map_app, app_assoc. reflexivity. }
  specialize (Hgen []). simpl in Hgen. rewrite app_nil_r in Hgen. exact Hgen.
Qed.

Lemma cmdPrompts_lift (tr : Trace CliEvent) :
  cmdPrompts (map liftCall tr) = promptsShown tr.
Proof.
  induction tr as [|c tr IH]; [reflexivity|].
  change (cmdPrompted (liftCall c) ++ cmdPrompts (map liftCall tr) =
          prompted c ++ promptsShown tr).
  rewrite IH. destruct c as [X e o]. destruct e; reflexivity.
Qed.

Lemma cmdFetches_lift (tr : Trace CliEvent) :
  cmdFetches (map liftCall tr) = fetches tr.
Proof.
  induction tr as [|c tr IH]; [reflexivity|].
  change (cmdFetched (liftCall c) ++ cmdFetches (map liftCall tr) =
          fetched c ++ fetches tr).
  rewrite IH. destruct c as [X e o]. destruct e; reflexivity.
Qed.

Lemma deploymentsSettled_lift (tr : Trace CliEvent) :
  deploymentsSettled (map liftCall tr) = [].
Proof.
  induction tr as [|[X e o] tr IH]; [reflexivity|]. exact IH.
Qed.

Lemma placementsAwaited_lift (tr : Trace CliEvent) :
  placementsAwaited (map liftCall tr) = [].
Proof.
  induction tr as [|[X e o] tr IH]; [reflexivity|]. exact IH.
Qed.

Lemma errorsRendered_lift (tr : Trace CliEvent) :
  errorsRendered (map liftCall tr) = [].
Proof.
  induction tr as [|[X e o] tr IH]; [reflexivity|]. exact IH.
Qed.

Lemma sshKeysAdded_lift (tr : Trace CliEvent) :
  sshKeysAdded (map liftCall tr) = [].
Proof.
  induction tr as [|[X e o] tr IH]; [reflexivity|]. exact IH.
Qed.

Lemma rejections_lift (tr : Trace CliEvent) :
  rejections (map liftCall tr) = rejections tr.
Proof.
  induction tr as [|c tr IH]; [reflexivity|].
  change (rejected (liftCall c) ++ rejections (map liftCall tr) =
          rejected c ++ rejections tr).
  rewrite IH. destruct c as [X e [err|x]]; reflexivity.
Qed.

End Lifting.

(** ** What the selection throws, and what it returns *)

(** X1: the selection throws nothing of its own.  When it throws, a
    call was rejected with that very message, it was the last call made
    and the only one rejected; when it returns, no call was rejected.
    In particular [keyItems[0].name] is never read off an empty list. *)
Theorem selection_throws_only_rejections (w : Collaborator CliEvent)
  (args : Args) (key : option SSHPublicKeyID) :
  let calls := fst (run w (askWhichSSHKeysDoTheyWantToAdd args key) []) in
  match snd (run w (askWhichSSHKeysDoTheyWantToAdd args key) []) with
  | inl err => rejections calls = [err] /\ rejections (removelast calls) = []
  | inr _ => rejections calls = []
  end.
Proof.
  unfold askWhichSSHKeysDoTheyWantToAdd.
  rewrite run_await.
  destruct (w [] _ (pollSSHKeysUntilCondition always)) as [err|keyItems];
    [split; reflexivity|].
  cbv zeta.
  destruct (allSshKeys args) as [[|]|];
    try reflexivity;
    (destruct (sshKeyId args) as [[|? ?]|]; try reflexivity);
    (destruct keyItems as [|a [|b l]];
     cbn [map List.length Nat.eqb Nat.leb app];
     [ reflexivity
     | rewrite run_await;
       match goal with
       | |- context [w ?done ?X ?e] => destruct (w done X e) as [?|yes]
       end;
       [split; reflexivity | destruct (truthy yes); reflexivity]
     | rewrite run_await;
       match goal with
       | |- context [w ?done ?X ?e] => destruct (w done X e) as [?|res]
       end;
       [ split; reflexivity
       | destruct (strictEqStr res "all"); [reflexivity|];
         destruct (strictEqStr res "select"); [|reflexivity];
         rewrite run_await;
         match goal with
         | |- context [w ?done ?X ?e] => destruct (w done X e)
         end; [split; reflexivity | reflexivity] ] ]).
Qed.

(** X2: the selection makes up no identifier.  Each identifier of a
    returned list is a key of the account, or one of the [sshKeyId]
    flags, or the [key] handed in, or the list is the very answer of
    the multi-select prompt. *)
Theorem selection_invents_no_identifier (w : Collaborator CliEvent)
  (args : Args) (key : option SSHPublicKeyID)
  (keyItems : list SSHPublicKeyItem) (ids : list string) (i : string) :
  w [] _ (pollSSHKeysUntilCondition always) = inr keyItems ->
  snd (run w (askWhichSSHKeysDoTheyWantToAdd args key) []) = inr (AArr ids) ->
  In i ids ->
  In i (map id keyItems)
  \/ In i (explicitKeyIds args)
  \/ key = Some i
  \/ exists promptConfig : PromptConfig,
       In (promptConfig, inr (AArr ids))
          (promptsShown (fst (run w (askWhichSSHKeysDoTheyWantToAdd args key) [])))
       /\ type promptConfig = multiselect.
Proof.
  intros Hfetch. unfold askWhichSSHKeysDoTheyWantToAdd, explicitKeyIds.
  rewrite run_fetch_settled with (keyItems := keyItems) by assumption.
  cbv zeta.
  assert (Hflags : forall (x : string) (l : list string),
    In i (withChosenKey (x :: l) key) -> In i (x :: l) \/ key = Some i).
  { intros x l. unfold withChosenKey. destruct key as [k|]; [|now left].
    destruct (String.eqb k ""); [now left|].
    rewrite in_app_iff. intros [Hin|[->|[]]]; [now left | now right]. }
  destruct (allSshKeys args) as [[|]|];
    try (cbn [run snd]; intros [= <-] Hin; now left);
    (destruct (sshKeyId args) as [[|x l]|];
     try (cbn [run snd]; intros [= <-] Hin; apply Hflags in Hin;
          destruct Hin; [right; left; assumption | right; right; left; assumption]));
    (destruct keyItems as [|a [|b l']];
     cbn [map List.length Nat.eqb Nat.leb app];
     [ cbn [run snd]; intros [= <-] []
     | rewrite run_await;
       match goal with
       | |- context [w ?done ?X ?e] => destruct (w done X e) as [?|yes]
       end;
       [ discriminate
       | destruct (truthy yes); cbn [run snd]; intros [= <-] Hin;
         [now left | destruct Hin] ]
     | rewrite run_await;
       match goal with
       | |- context [w ?done ?X ?e] => destruct (w done X e) as [?|res]
       end;
       [ discriminate
       | destruct (strictEqStr res "all");
         [ cbn [run snd]; intros [= <-] Hin; now left |];
         destruct (strictEqStr res "select");
         [| cbn [run snd]; intros [= <-] []];
         rewrite run_await;
         match goal with
         | |- context [w ?done ?X ?e] => destruct (w done X e) as [?|resKeys]
         end;
         [ discriminate
         | cbn [run snd fst]; intros [= ->] Hin;
           right; right; right;
           exists (selectKeysPrompt (a :: b :: l'));
           split; [right; left; reflexivity | reflexivity] ] ] ]).
Qed.

Lemma selection_invents_no_identifier_witness :
  In "id-2" (map id [k1; k2])
  \/ In "id-2" (explicitKeyIds noFlags)
  \/ @None SSHPublicKeyID = Some "id-2"
  \/ exists promptConfig : PromptConfig,
       In (promptConfig, inr (AArr ["id-2"]))
          (promptsShown
             (fst (run (scripted (inr [k1; k2]) [AStr "select"; AArr ["id-2"]])
                     (askWhichSSHKeysDoTheyWantToAdd noFlags None) [])))
       /\ type promptConfig = multiselect.
Proof.
  exact (@selection_invents_no_identifier
           (scripted (inr [k1; k2]) [AStr "select"; AArr ["id-2"]])
           noFlags None [k1; k2] ["id-2"] "id-2"
           eq_refl eq_refl (or_introl eq_refl)).
Defined.

(** ** The command without interaction, end to end *)

Section QuietFacts.
Context {imports : Imports}.

(** The two assignments of the source fill [image] and [location] in
    from the configuration, and leave every other flag alone. *)
Lemma flags_completed (args : Args) (config : Config) :
  match
    Cloudchamber.location (cloudchamber config),
    location
      match Cloudchamber.image (cloudchamber config), image args with
      | Some i, None => set_image args (Some i)
      | _, _ => args
      end
  with
  | Some l, None =>
      set_location
        match Cloudchamber.image (cloudchamber config), image args with
        | Some i, None => set_image args (Some i)
        | _, _ => args
        end (Some l)
  | _, _ =>
      match Cloudchamber.image (cloudchamber config), image args with
      | Some i, None => set_image args (Some i)
      | _, _ => args
      end
  end = completedFlags args config.
Proof.
  destruct args as [im lo va la al ss vc me ip en].
  destruct config as [[cim clo cip cvc cme]].
  unfold completedFlags.
  destruct cim, im, clo, lo; reflexivity.
Qed.

(** Run the non-interactive path in the goal, call by call. *)
Ltac quiet_run w args config Hquiet :=
  unfold createCommand;
  rewrite run_await;
  destruct (w [] _ (loadAccountSpinner args)) as [?|[]] eqn:?;
  [| rewrite Hquiet; cbn [negb]; cbv zeta;
     match goal with
     | |- context [checkEverythingIsSet ?a ?l] =>
         replace a with (completedFlags args config)
           by (symmetry; apply flags_completed)
     end;
     destruct (checkEverythingIsSet (completedFlags args config)
                 ["image"; "location"]) as [?|checked] eqn:?;
     [| destruct (parseImageName_err (Checked.image checked)) as [?|] eqn:?;
        [| cbn [completedFlags allSshKeys vcpu memory ipv4];
           destruct (allSshKeys args) as [[|]|] eqn:?;
           cbn [bind await perform lift run app];
           repeat match goal with
           | |- context [w ?done ?X ?e] =>
               destruct (w done X e) as [?|?] eqn:?;
               cbn [bind await perform lift run app]
           end ] ] ].

(** X3: the non-interactive path never interacts.  It loads the
    account, fetches the keys, requests the deployment and prints it,
    and calls nothing else: no prompt, no [sshPrompts], no spinner. *)
Theorem quiet_run_never_interacts (w : Collaborator CmdEvent) (args : Args)
  (config : Config) :
  interactWithUser args = false ->
  forallb quietCall (fst (run w (createCommand args config) [])) = true
  /\ cmdPrompts (fst (run w (createCommand args config) [])) = [].
Proof.
  intros Hquiet. quiet_run w args config Hquiet; split; reflexivity.
Qed.

(** X4: flags that stay incomplete stop the non-interactive path before
    any request.  Once the account is loaded, if [image] or [location]
    is still missing after the configuration has filled them in, or
    the image name does not parse, that error is thrown and neither the
    keys are fetched nor a deployment requested. *)
Theorem incomplete_flags_stop_before_any_request (w : Collaborator CmdEvent)
  (args : Args) (config : Config) (err : Error) :
  interactWithUser args = false ->
  w [] _ (loadAccountSpinner args) = inr tt ->
  (checkEverythingIsSet (completedFlags args config) ["image"; "location"]
     = inl err
   \/ exists checked : Checked.t,
        checkEverythingIsSet (completedFlags args config) ["image"; "location"]
          = inr checked
        /\ parseImageName_err (Checked.image checked) = Some err) ->
  run w (createCommand args config) [] =
  ([call (loadAccountSpinner args) (inr tt)], inl err).
Proof.
  intros Hquiet Hload Hflags.
  unfold createCommand. rewrite run_await, Hload, Hquiet.
  cbn [negb]. cbv zeta.
  match goal with
  | |- context [checkEverythingIsSet ?a ?l] =>
      replace a with (completedFlags args config)
        by (symmetry; apply flags_completed)
  end.
  destruct Hflags as [Hcheck|(checked & Hcheck & Hparse)]; rewrite Hcheck;
    [|rewrite Hparse]; reflexivity.
Qed.

(** X5: what the non-interactive path sends besides the keys.  The
    image and the location are the checked ones of the completed flags;
    [vcpu] and [memory] are the flag when there is one and the
    configuration's value otherwise; an IPv4 is asked for exactly when
    the [ipv4] flag, or without it the configuration, says [true]; the
    variables and the labels are the collected ones. *)
Theorem quiet_body_prefers_flags (w : Collaborator CmdEvent) (args : Args)
  (config : Config) (requestBody : CreateDeploymentV2RequestBody) :
  interactWithUser args = false ->
  In requestBody (deploymentsRequested (fst (run w (createCommand args config) []))) ->
  (exists checked : Checked.t,
     checkEverythingIsSet (completedFlags args config) ["image"; "location"]
       = inr checked
     /\ parseImageName_err (Checked.image checked) = None
     /\ body_image requestBody = Checked.image checked
     /\ body_location requestBody = Checked.location checked)
  /\ body_vcpu requestBody = vcpu args ?? Cloudchamber.vcpu (cloudchamber config)
  /\ body_memory requestBody
       = memory args ?? Cloudchamber.memory (cloudchamber config)
  /\ network requestBody =
       match ipv4 args ?? Cloudchamber.ipv4 (cloudchamber config) with
       | Some true => Some {| assign_ipv4 := PREDEFINED |}
       | _ => None
       end
  /\ environment_variables requestBody
       = collectEnvironmentVariables [] config (var args)
  /\ labels requestBody = collectLabels (label args).
Proof.
  intros Hquiet. quiet_run w args config Hquiet;
    cbn [fst deploymentsRequested flat_map created app In];
    intros Hsent; repeat destruct Hsent as [Hsent|Hsent]; try contradiction;
    subst requestBody;
    (split; [exists checked; repeat split; assumption | repeat split]).
Qed.

(** X6: the non-interactive path prints what it created.  It requests
    one deployment at most; what goes to [console.log] is the JSON of
    the deployment created, and nothing when none was; and it returns
    only after a deployment was created. *)
Theorem quiet_run_prints_what_it_created (w : Collaborator CmdEvent)
  (args : Args) (config : Config) :
  interactWithUser args = false ->
  let calls := fst (run w (createCommand args config) []) in
  List.length (deploymentsSettled calls) <= 1
  /\ consoleLogged calls = map stringify (deploymentsCreated calls)
  /\ (snd (run w (createCommand args config) []) = inr tt ->
      exists (requestBody : CreateDeploymentV2RequestBody) (deployment : Deployment),
        deploymentsSettled calls = [(requestBody, inr deployment)]).
Proof.
  intros Hquiet. quiet_run w args config Hquiet;
    cbv zeta; cbn [fst snd];
    (split; [cbn; lia|]); (split; [reflexivity|]);
    try discriminate; intros _; eexists; eexists; reflexivity.
Qed.

(** X7: the non-interactive path fetches the account's keys only for
    [allSshKeys], and then once. *)
Theorem quiet_run_fetches_only_for_allSshKeys (w : Collaborator CmdEvent)
  (args : Args) (config : Config) :
  interactWithUser args = false ->
  match allSshKeys args with
  | Some true =>
      List.length (cmdFetches (fst (run w (createCommand args config) []))) <= 1
  | _ => cmdFetches (fst (run w (createCommand args config) [])) = []
  end.
Proof.
  intros Hquiet.
  destruct (allSshKeys args) as [[|]|] eqn:Hall;
    quiet_run w args config Hquiet; try discriminate;
    first [reflexivity | cbn; lia].
Qed.

(** X8: the non-interactive path catches nothing.  Whatever a
    collaborator rejects, the rejection of [createDeploymentV2]
    included, is thrown by the command, and no call follows it. *)
Theorem quiet_run_throws_every_rejection (w : Collaborator CmdEvent)
  (args : Args) (config : Config) (err : Error) :
  interactWithUser args = false ->
  In err (rejections (fst (run w (createCommand args config) []))) ->
  snd (run w (createCommand args config) []) = inl err
  /\ rejections (fst (run w (createCommand args config) [])) = [err]
  /\ rejections (removelast (fst (run w (createCommand args config) []))) = [].
Proof.
  intros Hquiet. quiet_run w args config Hquiet;
    cbn [fst snd rejections flat_map rejected app In removelast];
    intros Hin; repeat destruct Hin as [Hin|Hin]; try contradiction;
    subst; repeat split.
Qed.

Lemma quiet_run_requests_once (w : Collaborator CmdEvent) (args : Args)
  (config : Config) :
  interactWithUser args = false ->
  List.length (deploymentsSettled (fst (run w (createCommand args config) []))) <= 1.
Proof.
  intros Hquiet. quiet_run w args config Hquiet; cbn; lia.
Qed.

End QuietFacts.

(** ** The command with interaction *)

(** The selection under [allSshKeys], against any collaborator. *)
Lemma run_selection_allSshKeys (v : Collaborator CliEvent) (args : Args)
  (key : option SSHPublicKeyID) :
  allSshKeys args = Some true ->
  run v (askWhichSSHKeysDoTheyWantToAdd args key) [] =
  ([call (pollSSHKeysUntilCondition always)
      (v [] _ (pollSSHKeysUntilCondition always))],
   match v [] _ (pollSSHKeysUntilCondition always) with
   | inl err => inl err
   | inr keyItems => inr (AArr (map id keyItems))
   end).
Proof.
  intros Hall. unfold askWhichSSHKeysDoTheyWantToAdd.
  rewrite run_await, Hall.
  destruct (v [] _ (pollSSHKeysUntilCondition always)); reflexivity.
Qed.

(** The selection under [sshKeyId], against any collaborator. *)
Lemma run_selection_sshKeyId (v : Collaborator CliEvent) (args : Args)
  (key : option SSHPublicKeyID) :
  allSshKeys args <> Some true ->
  explicitKeyIds args <> [] ->
  run v (askWhichSSHKeysDoTheyWantToAdd args key) [] =
  ([call (pollSSHKeysUntilCondition always)
      (v [] _ (pollSSHKeysUntilCondition always))],
   match v [] _ (pollSSHKeysUntilCondition always) with
   | inl err => inl err
   | inr _ =>
       inr (AArr (explicitKeyIds args ++
                  match key with
                  | Some k => if String.eqb k "" then [] else [k]
                  | None => []
                  end))
   end).
Proof.
  intros Hall Hids. unfold askWhichSSHKeysDoTheyWantToAdd, explicitKeyIds in *.
  rewrite run_await.
  destruct (v [] _ (pollSSHKeysUntilCondition always)); [reflexivity|].
  cbv zeta. flags args; try congruence;
    destruct key as [k|]; simpl; try destruct (String.eqb k "");
    rewrite ?app_nil_r; reflexivity.
Qed.

Section InteractiveFacts.
Context {imports : Imports}.

(** Settle the calls of the run in the goal, one after the other, each
    in both ways, and the test of the answer to "Proceed?". *)
Ltac settle_calls w :=
  cbn [bind await perform lift run app wrap fst snd];
  repeat first
    [ match goal with
      | |- context [w ?done ?X ?e] =>
          destruct (w done X e) as [?|?] eqn:?;
          cbn [bind await perform lift run app wrap fst snd]
      end
    | match goal with
      | |- context [truthy ?yes] =>
          is_var yes; destruct (truthy yes) eqn:?;
          cbn [negb bind await perform lift run app wrap fst snd]
      end ].

(** Run the selection inside the command, shape by shape. *)
Ltac selection_shapes w :=
  rewrite run_bind, run_lift;
  match goal with
  | |- context [run (selectionCollaborator w ?done)
                  (askWhichSSHKeysDoTheyWantToAdd ?a ?k) []] =>
      let Hs := fresh "Hs" in
      let selCalls := fresh "selCalls" in
      let selResult := fresh "selResult" in
      pose proof (selection_runs (selectionCollaborator w done) a k) as Hs;
      destruct (run (selectionCollaborator w done)
                  (askWhichSSHKeysDoTheyWantToAdd a k) [])
        as [selCalls selResult];
      inversion Hs; subst; clear Hs
  end;
  repeat match goal with
  | o : (Error + _)%type |- _ => destruct o
  end;
  cbn [fst snd map liftCall app].

Ltac interactive_run w :=
  unfold handleCreateCommand;
  settle_calls w; try (selection_shapes w; settle_calls w).

(** X9: nothing is created without consent.  Every body the
    interactive command sends to [createDeploymentV2] comes after the
    prompt "Proceed?" was answered, and answered truthy. *)
Theorem no_deployment_without_consent (w : Collaborator CmdEvent) (args : Args)
  (config : Config) (environmentVariables : option (list EnvironmentVariable))
  (labels : option (list Label)) (requestBody : CreateDeploymentV2RequestBody) :
  In requestBody
    (deploymentsRequested
       (fst (run w (handleCreateCommand args config environmentVariables labels) []))) ->
  exists yes : Arg,
    In (proceedPrompt, inr yes)
       (cmdPrompts
          (fst (run w (handleCreateCommand args config environmentVariables labels) [])))
    /\ truthy yes = true.
Proof.
  interactive_run w;
    cbn [fst deploymentsRequested flat_map created app In];
    intros Hsent; repeat destruct Hsent as [Hsent|Hsent]; try contradiction;
    eexists; (split; [cbn; auto 10 | assumption]).
Qed.

(** X10: a rejected creation is rendered, not thrown.  When
    [createDeploymentV2] is rejected in the interactive command, no
    placement is waited for; and when that rejection is the only one of
    the run, the command returns after handing the error to
    [renderDeploymentMutationError]. *)
Theorem rejected_creation_is_rendered (w : Collaborator CmdEvent) (args : Args)
  (config : Config) (environmentVariables : option (list EnvironmentVariable))
  (labels : option (list Label)) (requestBody : CreateDeploymentV2RequestBody)
  (err : Error) :
  let outcome := run w (handleCreateCommand args config environmentVariables labels) [] in
  In (requestBody, inl err) (deploymentsSettled (fst outcome)) ->
  placementsAwaited (fst outcome) = []
  /\ (rejections (fst outcome) = [err] ->
      snd outcome = inr tt
      /\ exists account : Account, errorsRendered (fst outcome) = [(account, err)]).
Proof.
  cbv zeta. interactive_run w;
    cbn [fst snd deploymentsSettled flat_map settled app In];
    intros Hsent; repeat destruct Hsent as [Hsent|Hsent]; try contradiction;
    try discriminate; injection Hsent as <- <-;
    (split; [reflexivity|]);
    cbn [rejections flat_map rejected app]; intros Honly; try discriminate;
    (split; [|eexists; reflexivity]);
    match goal with
    | |- inr ?u = inr tt => destruct u; reflexivity
    end.
Qed.

(** X11: a placement is waited for only after a creation.  The
    deployment given to [waitForPlacement] is the one
    [createDeploymentV2] resolved with, the only one requested in the
    run. *)
Theorem placement_follows_creation (w : Collaborator CmdEvent) (args : Args)
  (config : Config) (environmentVariables : option (list EnvironmentVariable))
  (labels : option (list Label)) (deployment : Deployment) :
  let calls := fst (run w (handleCreateCommand args config environmentVariables labels) []) in
  In deployment (placementsAwaited calls) ->
  exists requestBody : CreateDeploymentV2RequestBody,
    deploymentsSettled calls = [(requestBody, inr deployment)].
Proof.
  cbv zeta. interactive_run w;
    cbn [fst placementsAwaited flat_map app In];
    intros Hwait; repeat destruct Hwait as [Hwait|Hwait]; try contradiction;
    subst; eexists; reflexivity.
Qed.

(** X12: with [allSshKeys] the interactive command sends every key of
    the account: the identifiers of the keys its one fetch returned. *)
Theorem interactive_allSshKeys_sends_every_key (w : Collaborator CmdEvent)
  (args : Args) (config : Config)
  (environmentVariables : option (list EnvironmentVariable))
  (labels : option (list Label)) (requestBody : CreateDeploymentV2RequestBody) :
  let calls := fst (run w (handleCreateCommand args config environmentVariables labels) []) in
  allSshKeys args = Some true ->
  In requestBody (deploymentsRequested calls) ->
  exists keyItems : list SSHPublicKeyItem,
    cmdFetches calls = [inr keyItems]
    /\ ssh_public_key_ids requestBody = AArr (map id keyItems).
Proof.
  cbv zeta. intros Hall. unfold handleCreateCommand.
  settle_calls w;
    try (rewrite run_bind, run_lift, (run_selection_allSshKeys _ _ _ Hall);
         unfold selectionCollaborator; cbn [fst snd map liftCall app];
         settle_calls w);
    cbn [fst deploymentsRequested flat_map created app In];
    intros Hsent; repeat destruct Hsent as [Hsent|Hsent]; try contradiction;
    subst requestBody; eexists; split; reflexivity.
Qed.

(** X13: with [sshKeyId] flags, and without [allSshKeys], the
    interactive command sends the flags followed by the key that
    [sshPrompts] has just added, when it added one (and not the empty
    string). *)
Theorem interactive_sshKeyId_sends_flags_and_added_key
  (w : Collaborator CmdEvent) (args : Args) (config : Config)
  (environmentVariables : option (list EnvironmentVariable))
  (labels : option (list Label)) (requestBody : CreateDeploymentV2RequestBody) :
  let calls := fst (run w (handleCreateCommand args config environmentVariables labels) []) in
  allSshKeys args <> Some true ->
  explicitKeyIds args <> [] ->
  In requestBody (deploymentsRequested calls) ->
  exists added : option SSHPublicKeyID,
    sshKeysAdded calls = [inr added]
    /\ ssh_public_key_ids requestBody =
       AArr (explicitKeyIds args ++
             match added with
             | Some k => if String.eqb k "" then [] else [k]
             | None => []
             end).
Proof.
  cbv zeta. intros Hall Hids. unfold handleCreateCommand.
  settle_calls w;
    try (rewrite run_bind, run_lift, (run_selection_sshKeyId _ _ _ Hall Hids);
         unfold selectionCollaborator; cbn [fst snd map liftCall app];
         settle_calls w);
    cbn [fst deploymentsRequested flat_map created app In];
    intros Hsent; repeat destruct Hsent as [Hsent|Hsent]; try contradiction;
    subst requestBody; eexists; split; reflexivity.
Qed.

(** X14: the interactive command creates the deployment with the
    variables and the labels it was handed, whatever
    [promptForEnvironmentVariables] and [promptForLabels] came back
    with, and with the [vcpu] and [memory] of the flags or else of the
    configuration: the account's defaults are shown, not sent. *)
Theorem interactive_body_keeps_collected_settings (w : Collaborator CmdEvent)
  (args : Args) (config : Config)
  (environmentVariables : option (list EnvironmentVariable))
  (labels0 : option (list Label)) (requestBody : CreateDeploymentV2RequestBody) :
  In requestBody
    (deploymentsRequested
       (fst (run w (handleCreateCommand args config environmentVariables labels0) []))) ->
  environment_variables requestBody = environmentVariables
  /\ labels requestBody = labels0
  /\ body_vcpu requestBody = vcpu args ?? Cloudchamber.vcpu (cloudchamber config)
  /\ body_memory requestBody
       = memory args ?? Cloudchamber.memory (cloudchamber config).
Proof.
  interactive_run w;
    cbn [fst deploymentsRequested flat_map created app In];
    intros Hsent; repeat destruct Hsent as [Hsent|Hsent]; try contradiction;
    subst requestBody; repeat split.
Qed.

Lemma interactive_run_requests_once (w : Collaborator CmdEvent) (args : Args)
  (config : Config) :
  interactWithUser args = true ->
  List.length (deploymentsSettled (fst (run w (createCommand args config) []))) <= 1.
Proof.
  intros Hinteractive. unfold createCommand. rewrite run_await.
  destruct (w [] _ (loadAccountSpinner args)) as [?|[]]; [cbn; lia|].
  rewrite Hinteractive. cbn [negb]. cbv zeta.
  interactive_run w; cbn; lia.
Qed.

(** X15: one run of the command requests one deployment at most,
    whether it interacts with the user or not. *)
Theorem createCommand_requests_at_most_one_deployment
  (w : Collaborator CmdEvent) (args : Args) (config : Config) :
  List.length (deploymentsSettled (fst (run w (createCommand args config) []))) <= 1.
Proof.
  destruct (interactWithUser args) eqn:Hinteractive.
  - apply interactive_run_requests_once. exact Hinteractive.
  - apply quiet_run_requests_once. exact Hinteractive.
Qed.

End InteractiveFacts.

(** ** The facts above, on sample runs *)

Lemma quiet_run_never_interacts_witness :
  forallb quietCall
    (fst (run (scriptedCommand [k1; k2] AUndefined)
            (createCommand (withAllSshKeys None) sampleConfig) [])) = true
  /\ cmdPrompts
       (fst (run (scriptedCommand [k1; k2] AUndefined)
               (createCommand (withAllSshKeys None) sampleConfig) [])) = [].
Proof.
  exact (@quiet_run_never_interacts sampleImports
           (scriptedCommand [k1; k2] AUndefined) (withAllSshKeys None)
           sampleConfig eq_refl).
Defined.

Lemma incomplete_flags_stop_before_any_request_witness :
  run (scriptedCommand [k1] AUndefined)
      (createCommand (withAllSshKeys None) configWithoutImage) [] =
  ([call (loadAccountSpinner (withAllSshKeys None)) (inr tt)],
   inl "image is required but it's not passed as an argument").
Proof.
  exact (@incomplete_flags_stop_before_any_request sampleImports
           (scriptedCommand [k1] AUndefined) (withAllSshKeys None)
           configWithoutImage
           "image is required but it's not passed as an argument"
           eq_refl eq_refl (or_introl eq_refl)).
Defined.

Lemma quiet_body_prefers_flags_witness :
  network nginxBody = None /\ body_memory nginxBody = Some "2GB".
Proof.
  destruct (@quiet_body_prefers_flags sampleImports
              (scriptedCommand [k1] AUndefined) (withIpv4 false)
              configWithoutImage nginxBody eq_refl (or_introl eq_refl))
    as (_ & _ & Hmemory & Hnetwork & _).
  exact (conj Hnetwork Hmemory).
Defined.

Lemma quiet_run_prints_what_it_created_witness :
  exists (requestBody : @CreateDeploymentV2RequestBody sampleImports)
         (deployment : @Deployment sampleImports),
    deploymentsSettled
      (fst (run (scriptedCommand [k1] AUndefined)
              (createCommand noFlags sampleConfig) []))
    = [(requestBody, inr deployment)].
Proof.
  destruct (@quiet_run_prints_what_it_created sampleImports
              (scriptedCommand [k1] AUndefined) noFlags sampleConfig eq_refl)
    as (_ & _ & Hreturned).
  exact (Hreturned eq_refl).
Defined.

Lemma quiet_run_fetches_only_for_allSshKeys_witness :
  cmdFetches
    (fst (run (scriptedCommand [k1] AUndefined)
            (createCommand (withSshKeyIds ["id-1"]) sampleConfig) [])) = [].
Proof.
  exact (@quiet_run_fetches_only_for_allSshKeys sampleImports
           (scriptedCommand [k1] AUndefined) (withSshKeyIds ["id-1"])
           sampleConfig eq_refl).
Defined.

Lemma quiet_run_throws_every_rejection_witness :
  snd (run (scriptedCreation [k1] AUndefined None (inl "quota exceeded"))
         (createCommand noFlags sampleConfig) []) = inl "quota exceeded".
Proof.
  exact (proj1 (@quiet_run_throws_every_rejection sampleImports
                  (scriptedCreation [k1] AUndefined None (inl "quota exceeded"))
                  noFlags sampleConfig "quota exceeded"
                  eq_refl (or_introl eq_refl))).
Defined.

Lemma no_deployment_without_consent_witness :
  exists yes : Arg,
    In (proceedPrompt, inr yes)
       (cmdPrompts
          (fst (run (scriptedCommand [k1] (ABool true))
                  (handleCreateCommand noFlags sampleConfig None None) [])))
    /\ truthy yes = true.
Proof.
  assert (Hsent :
    In (interactiveBody ["id-1"])
       (deploymentsRequested
          (fst (run (scriptedCommand [k1] (ABool true))
                  (handleCreateCommand noFlags sampleConfig None None) []))))
    by (vm_compute; left; reflexivity).
  exact (@no_deployment_without_consent sampleImports
           (scriptedCommand [k1] (ABool true)) noFlags sampleConfig None None
           (interactiveBody ["id-1"]) Hsent).
Defined.

Lemma rejected_creation_is_rendered_witness :
  snd (run (scriptedCreation [k1] (ABool true) None (inl "quota exceeded"))
         (handleCreateCommand noFlags sampleConfig None None) []) = inr tt
  /\ exists account : @Account sampleImports,
       errorsRendered
         (fst (run (scriptedCreation [k1] (ABool true) None (inl "quota exceeded"))
                 (handleCreateCommand noFlags sampleConfig None None) []))
       = [(account, "quota exceeded")].
Proof.
  assert (Hsent :
    In (interactiveBody ["id-1"], inl "quota exceeded")
       (deploymentsSettled
          (fst (run (scriptedCreation [k1] (ABool true) None (inl "quota exceeded"))
                  (handleCreateCommand noFlags sampleConfig None None) []))))
    by (vm_compute; left; reflexivity).
  assert (Honly :
    rejections
      (fst (run (scriptedCreation [k1] (ABool true) None (inl "quota exceeded"))
              (handleCreateCommand noFlags sampleConfig None None) []))
    = ["quota exceeded"])
    by (vm_compute; reflexivity).
  exact (proj2 (@rejected_creation_is_rendered sampleImports
                  (scriptedCreation [k1] (ABool true) None (inl "quota exceeded"))
                  noFlags sampleConfig None None (interactiveBody ["id-1"])
                  "quota exceeded" Hsent) Honly).
Defined.

Lemma placement_follows_creation_witness :
  exists requestBody : @CreateDeploymentV2RequestBody sampleImports,
    deploymentsSettled
      (fst (run (scriptedCommand [k1] (ABool true))
              (handleCreateCommand noFlags sampleConfig None None) []))
    = [(requestBody, inr "deployment-1")].
Proof.
  assert (Hawaited :
    In "deployment-1"
       (placementsAwaited
          (fst (run (scriptedCommand [k1] (ABool true))
                  (handleCreateCommand noFlags sampleConfig None None) []))))
    by (vm_compute; left; reflexivity).
  exact (@placement_follows_creation sampleImports
           (scriptedCommand [k1] (ABool true)) noFlags sampleConfig None None
           "deployment-1" Hawaited).
Defined.

Lemma interactive_allSshKeys_sends_every_key_witness :
  exists keyItems : list SSHPublicKeyItem,
    cmdFetches
      (fst (run (scriptedCommand [k1; k2] (ABool true))
              (handleCreateCommand (withAllSshKeys None) sampleConfig None None) []))
    = [inr keyItems]
    /\ ssh_public_key_ids (interactiveBody ["id-1"; "id-2"])
       = AArr (map id keyItems).
Proof.
  assert (Hsent :
    In (interactiveBody ["id-1"; "id-2"])
       (deploymentsRequested
          (fst (run (scriptedCommand [k1; k2] (ABool true))
                  (handleCreateCommand (withAllSshKeys None) sampleConfig None None) []))))
    by (vm_compute; left; reflexivity).
  exact (@interactive_allSshKeys_sends_every_key sampleImports
           (scriptedCommand [k1; k2] (ABool true)) (withAllSshKeys None)
           sampleConfig None None (interactiveBody ["id-1"; "id-2"])
           eq_refl Hsent).
Defined.

Lemma interactive_sshKeyId_sends_flags_and_added_key_witness :
  exists added : option SSHPublicKeyID,
    sshKeysAdded
      (fst (run (scriptedCreation [k1] (ABool true) (Some "id-added")
                   (inr "deployment-1"))
              (handleCreateCommand (withSshKeyIds ["id-5"]) sampleConfig None None) []))
    = [inr added]
    /\ ssh_public_key_ids (interactiveBody ["id-5"; "id-added"]) =
       AArr (explicitKeyIds (withSshKeyIds ["id-5"]) ++
             match added with
             | Some k => if String.eqb k "" then [] else [k]
             | None => []
             end).
Proof.
  assert (Hsent :
    In (interactiveBody ["id-5"; "id-added"])
       (deploymentsRequested
          (fst (run (scriptedCreation [k1] (ABool true) (Some "id-added")
                       (inr "deployment-1"))
                  (handleCreateCommand (withSshKeyIds ["id-5"]) sampleConfig None None) []))))
    by (vm_compute; left; reflexivity).
  exact (@interactive_sshKeyId_sends_flags_and_added_key sampleImports
           (scriptedCreation [k1] (ABool true) (Some "id-added")
              (inr "deployment-1"))
           (withSshKeyIds ["id-5"]) sampleConfig None None
           (interactiveBody ["id-5"; "id-added"])
           ltac:(discriminate) ltac:(discriminate) Hsent).
Defined.

Lemma interactive_body_keeps_collected_settings_witness :
  environment_variables (interactiveBody ["id-1"]) = None
  /\ labels (interactiveBody ["id-1"]) = None
  /\ body_vcpu (interactiveBody ["id-1"])
       = vcpu noFlags ?? Cloudchamber.vcpu (cloudchamber sampleConfig)
  /\ body_memory (interactiveBody ["id-1"])
       = memory noFlags ?? Cloudchamber.memory (cloudchamber sampleConfig).
Proof.
  assert (Hsent :
    In (interactiveBody ["id-1"])
       (deploymentsRequested
          (fst (run (scriptedCommand [k1] (ABool true))
                  (handleCreateCommand noFlags sampleConfig None None) []))))
    by (vm_compute; left; reflexivity).
  exact (@interactive_body_keeps_collected_settings sampleImports
           (scriptedCommand [k1] (ABool true)) noFlags sampleConfig None None
           (interactiveBody ["id-1"]) Hsent).
Defined.
